(** * squema: typed schema value objects

    A shallow embedding of [squema.py] (classes [Config], [MetaSquema] and
    [Squema], and the helper [bases]) together with the properties its
    specification states about it.

    Python objects are modelled by a closed universe of values; dictionaries
    whose order is observable ([__fields__], [__values__], keyword arguments)
    are association lists with the insertion discipline of Python's [dict],
    the encoder and decoder registries are finite maps, and the dictionaries
    that [Config.__init__] copies and updates in place live in an explicit
    store.  Exceptions are results of an error monad, one constructor per
    [raise] statement of the source. *)

From Stdlib Require Import ZArith Lia.
From stdpp Require Import base option list strings pretty gmap.

#[local] Set Warnings "-register-all".
#[local] Open Scope Z_scope.

(** ** Types of the Python runtime *)

(** A class object as far as the code looks at it: its identity, its
    [__name__], whether its metaclass is [type] itself (the test
    [type(unit) is type]), and its [__bases__].  The identity is a token
    that stands for the object, as [id()] does: two class objects are the
    same object exactly when they have the same token, whatever their names
    are.  It is what [is] compares, what [isinstance] and [issubclass] look
    for among the ancestors, and what a dictionary keyed by classes goes by
    (a class hashes and compares by identity).  A built-in class has its
    name as its token. *)
Inductive PyType : Type :=
| MkType (tid : string) (tname : string) (tplain : bool) (tbases : list PyType).

Definition tid (t : PyType) : string :=
  match t with MkType i _ _ _ => i end.
Definition tname (t : PyType) : string :=
  match t with MkType _ n _ _ => n end.
Definition tplain (t : PyType) : bool :=
  match t with MkType _ _ p _ => p end.
Definition tbases (t : PyType) : list PyType :=
  match t with MkType _ _ _ bs => bs end.

(** [a is b] on class objects. *)
Definition type_is (a b : PyType) : bool := String.eqb (tid a) (tid b).

(** Every class [issubclass] accepts for [t]: [t] and all its ancestors. *)
Fixpoint ancestors (t : PyType) : list PyType :=
  match t with
  | MkType _ _ _ bs =>
      t :: (fix over (l : list PyType) : list PyType :=
              match l with
              | [] => []
              | b :: rest => ancestors b ++ over rest
              end) bs
  end.

Definition issubclass (t u : PyType) : bool := existsb (type_is u) (ancestors t).

Definition object_t : PyType := MkType "object" "object" true [].
Definition type_t : PyType := MkType "type" "type" true [object_t].
Definition int_t : PyType := MkType "int" "int" true [object_t].
Definition bool_t : PyType := MkType "bool" "bool" true [int_t].
Definition str_t : PyType := MkType "str" "str" true [object_t].
Definition list_t : PyType := MkType "list" "list" true [object_t].
Definition dict_t : PyType := MkType "dict" "dict" true [object_t].
Definition NoneType_t : PyType := MkType "NoneType" "NoneType" true [object_t].
Definition odict_items_t : PyType := MkType "odict_items" "odict_items" true [object_t].
Definition UNSET_t : PyType := MkType "UNSET" "UNSET" true [object_t].
Definition Squema_t : PyType := MkType "Squema" "Squema" false [object_t].
Definition function_t : PyType := MkType "function" "function" true [object_t].

(** ** Config, as a value *)

(** Callables (decoders, encoders, converter functions) are named; what a
    call does is the runtime's business, see [Runtime] below. *)
Definition FuncId : Type := string.

(** A registry maps a type, or a function used as a type specifier, to the
    callable registered for it; its keys are the tokens of these objects. *)
Abbreviation Registry := (gmap string FuncId).

Record Config : Type := MkConfig {
  strict : bool;
  mutable : bool;
  encoders : Registry;
  decoders : Registry
}.

(** ** Values, schema classes and type specifiers *)

Inductive Value : Type :=
| UNSET                                       (* the singleton of line 18 *)
| VNone
| VBool (b : bool)
| VInt (n : Z)
| VStr (s : string)
| VList (xs : list Value)
| VDict (kvs : list (string * Value))         (* dict or OrderedDict, str keys *)
| VItems (kvs : list (string * Value))        (* the view OrderedDict.items() returns *)
| VType (t : PyType)                          (* a class used as a value *)
| VObj (t : PyType) (payload : Value)         (* an instance of any other class *)
| VInst (c : Class) (vals : list (string * Value)) (extra : list (string * Value))
with Class : Type :=
| MkClass (cty : PyType)                      (* identity, name and bases *)
          (cfields : list (string * Value))   (* __fields__ *)
          (cann : list (string * TypeSpec))   (* __annotations__ *)
          (ccfg : Config)                     (* __config__, as attribute lookup finds it *)
          (cattrs : list (string * Value))    (* the other attributes found on the class *)
with TypeSpec : Type :=
| TClass (t : PyType)                         (* a class that is not a schema *)
| TSchema (c : Class)                         (* Squema or a subclass of it *)
| TFunc (f : FuncId).                         (* a plain function, e.g. a NewType *)

Definition cty (c : Class) : PyType :=
  match c with MkClass t _ _ _ _ => t end.
Definition cfields (c : Class) : list (string * Value) :=
  match c with MkClass _ f _ _ _ => f end.
Definition cann (c : Class) : list (string * TypeSpec) :=
  match c with MkClass _ _ a _ _ => a end.
Definition ccfg (c : Class) : Config :=
  match c with MkClass _ _ _ g _ => g end.
Definition cattrs (c : Class) : list (string * Value) :=
  match c with MkClass _ _ _ _ x => x end.
Definition cname (c : Class) : string := tname (cty c).
Definition cid (c : Class) : string := tid (cty c).

(** [a is b] on schema classes. *)
Definition class_is (a b : Class) : bool := type_is (cty a) (cty b).

(** An instance: its class, its [__values__] table, and the rest of its
    [__dict__]. *)
Record Instance : Type := MkInstance {
  icls : Class;
  ivalues : list (string * Value);
  iextra : list (string * Value)
}.

Definition to_value (self : Instance) : Value :=
  VInst (icls self) (ivalues self) (iextra self).

Definition is_unset (v : Value) : bool :=
  match v with UNSET => true | _ => false end.

Definition type_of (v : Value) : PyType :=
  match v with
  | UNSET => UNSET_t
  | VNone => NoneType_t
  | VBool _ => bool_t
  | VInt _ => int_t
  | VStr _ => str_t
  | VList _ => list_t
  | VDict _ => dict_t
  | VItems _ => odict_items_t
  | VType _ => type_t
  | VObj t _ => t
  | VInst c _ _ => cty c
  end.

(** The values that are neither mappings nor carry a [__name__]. *)
Definition nameless (value : Value) : bool :=
  match value with
  | VDict _ | VInst _ _ _ | VType _ => false
  | _ => true
  end.

(** The key under which a type specifier is looked up in [decoders]. *)
Definition spec_key (unit : TypeSpec) : string :=
  match unit with
  | TClass t => tid t
  | TSchema c => cid c
  | TFunc f => f
  end.

(** A type specifier as the value it is in an [__annotations__]
    dictionary. *)
Definition spec_value (unit : TypeSpec) : Value :=
  match unit with
  | TClass t => VType t
  | TSchema c => VType (cty c)
  | TFunc f => VObj function_t (VStr f)
  end.

(** [isinstance(unit, FunctionType)] *)
Definition is_function (unit : TypeSpec) : bool :=
  match unit with TFunc _ => true | _ => false end.

(** [isinstance(value, unit)] for a [unit] that is a class. *)
Definition isinstance (value : Value) (unit : TypeSpec) : bool :=
  match unit with
  | TClass t => issubclass (type_of value) t
  | TSchema c =>
      match value with
      | VInst cv _ _ => issubclass (cty cv) (cty c)
      | _ => false
      end
  | TFunc _ => false
  end.

(** ** Exceptions *)

Inductive ExnKind : Type :=
| KAssertionError | KValueError | KTypeError | KAttributeError | KKeyError
| KOther (name : string).

(** One constructor per [raise] of the source, with the names its message
    interpolates; [Builtin] is an exception raised by the interpreter or by
    a callable of the runtime.  [NotModelled] is no exception of the
    program: it marks an operation whose effect the model does not follow,
    and no property below is about it. *)
Inductive Exn : Type :=
| ArgsAndKwargs                                    (* line 121, the assert *)
| TooManyArguments (cls : string)                  (* line 127 *)
| NotAValidAttribute (key cls : string)            (* line 135 *)
| MissingValue (empty : list string)               (* line 141 *)
| ExpectedType (unit key got : string)             (* line 161 *)
| MustBeMapping (key : string) (name : Value)      (* line 167 *)
| NoDecoder (got : string)                         (* line 172 *)
| NotAnAttribute (key cls : string)                (* line 178 *)
| Immutable (cls : string)                         (* lines 186 and 221 *)
| NotAField (key cls : string)                     (* line 190 *)
| NotAKey (key cls : string)                       (* lines 209 and 216 *)
| InvalidFields (cls : string)                     (* line 250 *)
| NoEncoder (got : string)                         (* line 263 *)
| Builtin (k : ExnKind) (msg : string)
| NotModelled (what : string).

Definition kind_of (e : Exn) : ExnKind :=
  match e with
  | ArgsAndKwargs => KAssertionError
  | TooManyArguments _ => KValueError
  | NotAValidAttribute _ _ => KAttributeError
  | MissingValue _ => KValueError
  | ExpectedType _ _ _ => KValueError
  | MustBeMapping _ _ => KTypeError
  | NoDecoder _ => KTypeError
  | NotAnAttribute _ _ => KAttributeError
  | Immutable _ => KTypeError
  | NotAField _ _ => KValueError
  | NotAKey _ _ => KKeyError
  | InvalidFields _ => KValueError
  | NoEncoder _ => KTypeError
  | Builtin k _ => k
  | NotModelled _ => KOther "NotModelled"
  end.

Definition is_ValueError (e : Exn) : bool :=
  match kind_of e with KValueError => true | _ => false end.
Definition is_TypeError (e : Exn) : bool :=
  match kind_of e with KTypeError => true | _ => false end.

Inductive result (A : Type) : Type :=
| Ok (a : A)
| Raise (e : Exn).
Arguments Ok {A} a.
Arguments Raise {A} e.

#[global] Instance result_ret : MRet result := fun A a => Ok a.
#[global] Instance result_bind : MBind result := fun A B f r =>
  match r with
  | Ok a => f a
  | Raise e => Raise e
  end.

Ltac unfold_bind := unfold mbind, result_bind in *.

(** [try: body except K: handler] *)
Definition try_except {A : Type} (body : result A) (catches : Exn -> bool)
    (handler : Exn -> result A) : result A :=
  match body with
  | Ok a => Ok a
  | Raise e => if catches e then handler e else Raise e
  end.

(** ** Ordered dictionaries *)

Section odict.
Context {V : Type}.

Fixpoint odict_get (key : string) (d : list (string * V)) : option V :=
  match d with
  | [] => None
  | (k, v) :: rest => if String.eqb key k then Some v else odict_get key rest
  end.

(** [key in d] *)
Definition odict_mem (key : string) (d : list (string * V)) : bool :=
  match odict_get key d with Some _ => true | None => false end.

(** [d[key] = v]: the value of a key that is there is replaced where it
    stands, a new key goes to the end. *)
Fixpoint odict_set (key : string) (v : V) (d : list (string * V)) : list (string * V) :=
  match d with
  | [] => [(key, v)]
  | (k, w) :: rest =>
      if String.eqb key k then (k, v) :: rest else (k, w) :: odict_set key v rest
  end.

(** [d.update(other)] *)
Definition odict_update (d other : list (string * V)) : list (string * V) :=
  fold_left (fun acc kv => odict_set kv.1 kv.2 acc) other d.

Definition odict_keys (d : list (string * V)) : list string := map fst d.
End odict.

(** ** The runtime the module runs on *)

(** What the code calls and does not define: function objects, the
    constructors of the classes that are not schemas, [repr] of their
    instances, and [hash] of a [str]. *)
Record Runtime : Type := MkRuntime {
  rt_call : FuncId -> Value -> result Value;
  rt_construct : PyType -> Value -> result Value;
  rt_repr : Value -> string;
  rt_hash : string -> Z
}.

(** ** class Squema *)

Module Squema.
Section semantics.
Variable rt : Runtime.

(** [items], lines 236-242.  The body contains a [yield], so Python
    compiles the whole function as a generator: in strict mode the
    [return self.__values__.items()] ends the iteration at once and nothing
    is yielded; otherwise the pairs whose value is not [UNSET] are yielded
    in the order of the table. *)
Definition items (self : Instance) : list (string * Value) :=
  if strict (ccfg (icls self)) then []
  else List.filter (fun kv => negb (is_unset kv.2)) (ivalues self).

Definition keys (self : Instance) : list string := map fst (items self).
Definition values (self : Instance) : list Value := map snd (items self).
Definition __iter__ (self : Instance) : list string := keys self.

(** [key in self]: the class has no [__contains__], so Python iterates. *)
Definition contains (self : Instance) (key : string) : bool :=
  existsb (String.eqb key) (__iter__ self).

Definition __len__ (self : Instance) : nat := length (ivalues self).

(** [repr(v)].  For a schema instance this is [__repr__] below. *)
Fixpoint repr (v : Value) : string :=
  match v with
  | UNSET => "UNSET"
  | VNone => "None"
  | VBool b => if b then "True" else "False"
  | VInt n => pretty n
  | VInst c vals _ =>
      cname c +:+ "(" +:+
      String.concat ", "
        (if strict (ccfg c) then []
         else (fix each (l : list (string * Value)) : list string :=
                 match l with
                 | [] => []
                 | (k, x) :: rest =>
                     if negb (is_unset x) then (k +:+ "=" +:+ repr x) :: each rest
                     else each rest
                 end) vals)
      +:+ ")"
  | _ => rt_repr rt v
  end.

Definition __repr__ (self : Instance) : string :=
  let values := map (fun kv => kv.1 +:+ "=" +:+ repr kv.2) (items self) in
  cname (icls self) +:+ "(" +:+ String.concat ", " values +:+ ")".

Definition __hash__ (self : Instance) : Z := rt_hash rt (__repr__ self).

Definition __eq__ (self item : Instance) : bool :=
  class_is (icls item) (icls self) && (__hash__ item =? __hash__ self).


Definition __getattr__ (self : Instance) (key : string) : result Value :=
  match odict_get key (ivalues self) with
  | Some v => Ok v
  | None => Raise (NotAnAttribute key (cname (icls self)))
  end.

(** What the interpreter finds for [self.key] before it falls back on
    [__getattr__]: the instance's own [__dict__], then the class. *)
Definition ordinary_lookup (self : Instance) (key : string) : option Value :=
  if String.eqb key "__values__" then Some (VDict (ivalues self))
  else match odict_get key (iextra self) with
       | Some v => Some v
       | None => odict_get key (cattrs (icls self))
       end.

(** [self.key] *)
Definition attr_get (self : Instance) (key : string) : result Value :=
  match ordinary_lookup self key with
  | Some v => Ok v
  | None => __getattr__ self key
  end.

(** Unpacking [value] as the keyword arguments of a call. *)
Definition unpack_kwargs (value : Value) : result (list (string * Value)) :=
  match value with
  | VDict kvs => Ok kvs
  | VInst c vals extra => Ok (items (MkInstance c vals extra))
  | _ => Raise (Builtin KTypeError "argument after ** must be a mapping")
  end.

(** [value.__name__] *)
Definition name_attr (value : Value) : result Value :=
  match value with
  | VType t => Ok (VStr (tname t))
  | VInst c vals extra => attr_get (MkInstance c vals extra) "__name__"
  | _ => Raise (Builtin KAttributeError "__name__")
  end.

(** [__init__], lines 120-141, over the coercion routine of the class. *)
Section init.
Variable coerce_field : string -> Value -> result Value.
Variable c : Class.

(** The loop of lines 131-136. *)
Fixpoint init_kwargs (kwargs : list (string * Value))
    (values : list (string * Value)) : result (list (string * Value)) :=
  match kwargs with
  | [] => Ok values
  | (key, v) :: rest =>
      if odict_mem key values then
        x ← coerce_field key v;
        init_kwargs rest (odict_set key x values)
      else if strict (ccfg c) then
        Raise (NotAValidAttribute key (cname c))
      else init_kwargs rest values
  end.

Definition init_with (args : list Value) (kwargs : list (string * Value))
    : result Instance :=
  if negb (bool_decide (args = [])) && negb (bool_decide (kwargs = [])) then
    Raise ArgsAndKwargs
  else
    let values := cfields c in
    kwargs ← (if negb (bool_decide (args = [])) then
                if strict (ccfg c) && (length values <? length args)%nat then
                  Raise (TooManyArguments (cname c))
                else Ok (zip (odict_keys values) args)
              else Ok kwargs);
    values ← init_kwargs kwargs values;
    if strict (ccfg c) then
      let empty := map fst (List.filter (fun kv => is_unset kv.2) values) in
      if negb (bool_decide (empty = [])) then Raise (MissingValue empty)
      else Ok (MkInstance c values [])
    else Ok (MkInstance c values []).

(** Calling the class with positional and keyword arguments: a keyword
    named [self] collides with the first parameter of [__init__]. *)
Definition call_with (args : list Value) (kwargs : list (string * Value))
    : result Instance :=
  if odict_mem "self" kwargs then
    Raise (Builtin KTypeError "__init__() got multiple values for argument 'self'")
  else init_with args kwargs.
End init.

(** The body of [__getval__], lines 150-172, for the declared type [unit]
    of [key]; the schema class of a nested field coerces its own fields
    with its own annotations and policy.  A class whose metaclass is not
    [type] (an [Enum], say) is called through the [callable] branch; with
    the three kinds of specifier there are, the last branch (line 172) is
    never reached. *)
Fixpoint coerce (cfg : Config) (unit : TypeSpec) (key : string) (value : Value)
    {struct unit} : result Value :=
  if negb (is_function unit) && isinstance value unit then Ok value
  else
    match decoders cfg !! spec_key unit with
    | Some decoder => rt_call rt decoder value
    | None =>
        match unit with
        | TClass t =>
            if tplain t then
              try_except (rt_construct rt t value) is_ValueError
                (fun _ => Raise (ExpectedType (tname t) key (tname (type_of value))))
            else rt_construct rt t value
        | TSchema c =>
            try_except
              (kwargs ← unpack_kwargs value;
               instance ←
                 call_with
                   (fun k v =>
                      (fix annotated (ann : list (string * TypeSpec)) : result Value :=
                         match ann with
                         | [] => Raise (Builtin KKeyError k)
                         | (k', u) :: rest =>
                             if String.eqb k k' then coerce (ccfg c) u k v
                             else annotated rest
                         end) (cann c))
                   c [] kwargs;
               Ok (to_value instance))
              is_TypeError
              (fun _ => name ← name_attr value; Raise (MustBeMapping key name))
        | TFunc f => rt_call rt f value
        end
    end.

Definition getval (c : Class) (key : string) (value : Value) : result Value :=
  match odict_get key (cann c) with
  | Some unit => coerce (ccfg c) unit key value
  | None => Raise (Builtin KKeyError key)
  end.

Definition __getval__ (self : Instance) (key : string) (value : Value)
    : result Value :=
  getval (icls self) key value.

Definition __init__ (c : Class) (args : list Value)
    (kwargs : list (string * Value)) : result Instance :=
  init_with (getval c) c args kwargs.

(** Calling the class [c]. *)
Definition call (c : Class) (args : list Value)
    (kwargs : list (string * Value)) : result Instance :=
  call_with (getval c) c args kwargs.

(** The attributes of the class that the methods read through [self]: an
    entry of the instance's [__dict__] under one of these names would
    shadow them. *)
Definition shadowing : list string :=
  ["__fields__"; "__annotations__"; "__config__"; "__getval__"; "__getattr__";
   "__setattr__"; "items"; "keys"; "encode"].

(** The names under which [object.__setattr__] does something else than
    add an entry to the instance's [__dict__], or something more:
    [__class__], [__dict__] and [__weakref__] are data descriptors of every
    class, so the assignment is theirs, and [__values__] holds the table. *)
Definition reserved : list string :=
  ["__class__"; "__dict__"; "__weakref__"; "__values__"] ++ shadowing.

(** [object.__setattr__(self, key, value)].  [__class__] takes a class and
    [__dict__] a dictionary, and raise [TypeError] for another value;
    [__weakref__] cannot be assigned; a dictionary assigned to [__values__]
    becomes the table.  What the program does after the other assignments
    to a reserved name is not followed. *)
Definition object_setattr (self : Instance) (key : string) (value : Value)
    : result Instance :=
  if String.eqb key "__class__" then
    if issubclass (type_of value) type_t then Raise (NotModelled key)
    else Raise (Builtin KTypeError "__class__ must be set to a class")
  else if String.eqb key "__dict__" then
    if issubclass (type_of value) dict_t then Raise (NotModelled key)
    else Raise (Builtin KTypeError "__dict__ must be set to a dictionary")
  else if String.eqb key "__weakref__" then
    Raise (Builtin KAttributeError "attribute '__weakref__' is not writable")
  else if String.eqb key "__values__" then
    match value with
    | VDict table => Ok (MkInstance (icls self) table (iextra self))
    | _ => Raise (NotModelled key)
    end
  else if bool_decide (key ∈ shadowing) then Raise (NotModelled key)
  else Ok (MkInstance (icls self) (ivalues self) (odict_set key value (iextra self))).

(** An instance whose own attributes leave alone what the methods read
    through [self]: none is under a reserved name.  An instance is so when
    it is constructed, and stays so under the assignments that are
    followed. *)
Definition plain (self : Instance) : Prop :=
  Forall (fun kv => kv.1 ∉ reserved) (iextra self).

Definition __setattr__ (self : Instance) (key : string) (value : Value)
    : result Instance :=
  if odict_mem key (ivalues self) then
    if mutable (ccfg (icls self)) then
      x ← __getval__ self key value;
      Ok (MkInstance (icls self) (odict_set key x (ivalues self)) (iextra self))
    else Raise (Immutable (cname (icls self)))
  else if negb (strict (ccfg (icls self))) then
    object_setattr self key value
  else Raise (NotAField key (cname (icls self))).

Definition __getitem__ (self : Instance) (key : string) : result Value :=
  if odict_mem key (ivalues self) then __getattr__ self key
  else Raise (NotAKey key (cname (icls self))).

Definition __setitem__ (self : Instance) (key : string) (value : Value)
    : result Instance :=
  if odict_mem key (ivalues self) then __setattr__ self key value
  else Raise (NotAKey key (cname (icls self))).

Definition __delitem__ (self : Instance) (key : string) : result Instance :=
  if negb (mutable (ccfg (icls self))) then Raise (Immutable (cname (icls self)))
  else Ok (MkInstance (icls self) (odict_set key UNSET (ivalues self)) (iextra self)).


Definition copy (self : Instance) : result Instance :=
  kwargs ← unpack_kwargs (VItems (ivalues self));
  call (icls self) [] kwargs.

Definition update (self : Instance) (data : list (string * Value))
    : result Instance :=
  let values := List.filter (fun kv => odict_mem kv.1 (ivalues self)) data in
  if strict (ccfg (icls self)) && negb (length data =? length values)%nat then
    Raise (InvalidFields (cname (icls self)))
  else Ok (MkInstance (icls self) (odict_update (ivalues self) values) (iextra self)).

(** [bases], lines 267-271.  The inner call [bases(base)] only builds a
    generator that nobody iterates: its items are never yielded. *)
Fixpoint bases (item : PyType) : list PyType :=
  match item with
  | MkType _ _ _ bs =>
      (fix each (l : list PyType) : list PyType :=
         match l with
         | [] => []
         | base :: rest => let _ := bases base in base :: each rest
         end) bs
  end.

(** The loop of lines 260-262: the first base with an encoder. *)
Fixpoint first_encoder (reg : Registry) (l : list PyType) : option FuncId :=
  match l with
  | [] => None
  | base :: rest =>
      match reg !! tid base with
      | Some f => Some f
      | None => first_encoder reg rest
      end
  end.

Definition encode (cls : Class) (value : Value) : result Value :=
  match encoders (ccfg cls) !! tid (type_of value) with
  | Some f => rt_call rt f value
  | None =>
      match value with
      | VInst c vals extra => Ok (VDict (items (MkInstance c vals extra)))
      | _ =>
          match first_encoder (encoders (ccfg cls)) (bases (type_of value)) with
          | Some f => rt_call rt f value
          | None => Raise (NoEncoder (tname (type_of value)))
          end
      end
  end.
End semantics.
End Squema.

(** ** class MetaSquema *)

Module MetaSquema.
(** An entry of the [bases] tuple of a class statement. *)
Inductive Base : Type :=
| BSquema                 (* Squema itself *)
| BSchema (c : Class)     (* a proper subclass of Squema *)
| BOther (t : PyType).    (* any other class *)

Definition base_type (b : Base) : PyType :=
  match b with
  | BSquema => Squema_t
  | BSchema c => cty c
  | BOther t => t
  end.

(** The body of the loop of lines 95-98. *)
Definition inherit
    (acc : list (string * Value) * list (string * TypeSpec)) (base : Base)
    : list (string * Value) * list (string * TypeSpec) :=
  match base with
  | BSchema c => (odict_update acc.1 (cfields c), odict_update acc.2 (cann c))
  | _ => acc
  end.

(** The body of the loop of lines 101-105. *)
Definition declare (namespace : list (string * Value))
    (fields : list (string * Value)) (key : string) : list (string * Value) :=
  match odict_get key namespace with
  | Some v => odict_set key v fields
  | None => if negb (odict_mem key fields) then odict_set key UNSET fields else fields
  end.

(** [__new__], lines 92-114: the field table, the merged annotations and
    the namespace the class is created with, which holds the entries of
    the class body whose names are not fields (line 108) and the three
    entries of lines 109-111.  [annotations] is the [__annotations__] entry
    of the class body, which line 111 replaces, and [namespace] its other
    entries. *)
Definition __new__ (bases : list Base) (annotations : list (string * TypeSpec))
    (namespace : list (string * Value))
    : list (string * Value) * list (string * TypeSpec) * list (string * Value) :=
  let '(fields, types) := fold_left inherit (rev bases) ([], []) in
  let fields := fold_left (declare namespace) (map fst annotations) fields in
  let annotations := odict_update types annotations in
  (fields,
   annotations,
   odict_set "__annotations__"
     (VDict (map (fun kv => (kv.1, spec_value kv.2)) annotations))
     (odict_set "__values__" (VDict [])
        (odict_set "__fields__" (VDict fields)
           (List.filter (fun kv => negb (odict_mem kv.1 fields)) namespace)))).

(** The class a class statement creates: a new class object, whose token
    is [id].  [config] is what [__config__] resolves to on the new class
    and [inherited] the attributes found on its bases; both are the
    interpreter's attribute lookup, not code of the module. *)
Definition define (id name : string) (bases : list Base)
    (annotations : list (string * TypeSpec)) (namespace : list (string * Value))
    (config : Config) (inherited : list (string * Value)) : Class :=
  let '(fields, types, new_namespace) := __new__ bases annotations namespace in
  MkClass (MkType id name false (map base_type bases)) fields types config
    (new_namespace ++ inherited).

(** The order of the field table in the words of the specification: the
    bases contribute in reverse declaration order, then the class's own
    declarations; a name that is already there keeps its place and a new
    one goes to the end. *)
Definition append_new (acc names : list string) : list string :=
  acc ++ List.filter (fun k => negb (existsb (String.eqb k) acc)) names.

Definition schema_fields (b : Base) : list string :=
  match b with
  | BSchema c => odict_keys (cfields c)
  | _ => []
  end.

Definition field_order_spec (bases : list Base)
    (annotations : list (string * TypeSpec)) : list string :=
  fold_left append_new (map schema_fields (rev bases) ++ [map fst annotations]) [].
End MetaSquema.

(** ** class Config *)

(** [Config.__init__] copies the dictionaries held by the class and updates
    the copies in place, so dictionaries are objects in a store here. *)
Module ConfigClass.
Abbreviation loc := nat.
Abbreviation Heap := (gmap loc Registry).

(** The class attributes [Config.encoders] and [Config.decoders]: each a
    reference to a dictionary. *)
Record ClassAttrs : Type := MkClassAttrs {
  cls_encoders : loc;
  cls_decoders : loc
}.

(** The [__dict__] of a [Config] object. *)
Record Self : Type := MkSelf {
  self_strict : option bool;
  self_mutable : option bool;
  self_encoders : option loc;
  self_decoders : option loc
}.

(** [self.encoders] and [self.decoders]: the instance's own attribute when
    it has one, else the attribute of the class. *)
Definition get_encoders (cls : ClassAttrs) (self : Self) : loc :=
  default (cls_encoders cls) (self_encoders self).
Definition get_decoders (cls : ClassAttrs) (self : Self) : loc :=
  default (cls_decoders cls) (self_decoders self).

(** [d.copy()]: a new dictionary with the entries of [d]. *)
Definition dict_copy (h : Heap) (d : loc) : option (Heap * loc) :=
  entries ← h !! d;
  let d' := fresh (dom h) in
  Some (<[d' := entries]> h, d').

(** [d.update(other)], in place; the entries of [other] win. *)
Definition dict_update (h : Heap) (d : loc) (other : Registry) : Heap :=
  alter (fun entries => other ∪ entries) d h.

(** The entries of [arg or {}]. *)
Definition or_empty (h : Heap) (arg : option loc) : option Registry :=
  match arg with
  | None => Some ∅
  | Some d => h !! d
  end.

(** [__init__], lines 56-67. *)
Definition __init__ (cls : ClassAttrs) (h : Heap) (strict mutable : bool)
    (encoders decoders : option loc) : option (Heap * Self) :=
  let self := MkSelf (Some strict) (Some mutable) None None in
  '(h, e) ← dict_copy h (get_encoders cls self);
  let self := MkSelf (self_strict self) (self_mutable self) (Some e) (self_decoders self) in
  other ← or_empty h encoders;
  let h := dict_update h (get_encoders cls self) other in
  '(h, d) ← dict_copy h (get_decoders cls self);
  let self := MkSelf (self_strict self) (self_mutable self) (self_encoders self) (Some d) in
  other ← or_empty h decoders;
  let h := dict_update h (get_decoders cls self) other in
  Some (h, self).

(** The policy a [Config] object stands for in a given store. *)
Definition read (cls : ClassAttrs) (h : Heap) (self : Self) : option Config :=
  enc ← h !! get_encoders cls self;
  dec ← h !! get_decoders cls self;
  Some (MkConfig (default false (self_strict self))
                 (default false (self_mutable self)) enc dec).
End ConfigClass.

(** The registries of lines 37-54, keyed by the tokens of the classes. *)
Definition default_encoders : Registry :=
  list_to_map
    [("UUID", "str"); ("Decimal", "float"); ("set", "list"); ("frozenset", "list");
     ("generator", "list"); ("date", "str"); ("time", "str"); ("datetime", "str");
     ("Enum", "lambda e: e.value"); ("bytes", "lambda o: o.decode()");
     ("timedelta", "lambda td: td.total_seconds()")].

Definition default_decoders : Registry :=
  list_to_map
    [("date", "parser(date)"); ("time", "parser(time)");
     ("datetime", "parser(datetime)")].

(** [Config()], the [__config__] of [Squema]. *)
Definition default_config : Config :=
  MkConfig false false default_encoders default_decoders.

(** ** Sample classes *)

(** The classes of the test module, and the few more the properties below
    are evaluated on. *)
Module Samples.
Import MetaSquema.

(** The methods every schema class inherits from [Squema], as attribute
    lookup on the class finds them. *)
Definition Squema_attrs : list (string * Value) :=
  map (fun name => (name, VObj function_t (VStr name)))
    ["__init__"; "__str__"; "__repr__"; "__getval__"; "__getattr__";
     "__setattr__"; "__len__"; "__eq__"; "__ne__"; "__hash__"; "__getitem__";
     "__setitem__"; "__delitem__"; "__iter__"; "__reversed__"; "keys";
     "values"; "items"; "copy"; "update"; "encode"].

(** A runtime none of whose callables is ever reached by the samples. *)
Definition rt : Runtime :=
  MkRuntime (fun f _ => Raise (Builtin (KOther "NotImplementedError") f))
            (fun t _ => Raise (Builtin (KOther "NotImplementedError") (tname t)))
            (fun _ => "<object>")
            (fun s => Z.of_nat (String.length s)).

(** [class Entity(Squema): boolean: bool] *)
Definition Entity : Class :=
  define "Entity" "Entity" [BSquema] [("boolean", TClass bool_t)] [] default_config
    Squema_attrs.

(** [class Outer(Squema): number: int; entity: Entity] *)
Definition Outer : Class :=
  define "Outer" "Outer" [BSquema] [("number", TClass int_t); ("entity", TSchema Entity)]
    [] default_config Squema_attrs.

(** [class Model(Squema): number: int; __config__ = Config(mutable=True)],
    as in [test_mutable_squema]. *)
Definition Model : Class :=
  define "Model" "Model" [BSquema] [("number", TClass int_t)] []
    (MkConfig false true default_encoders default_decoders) Squema_attrs.

(** The same with [Config(strict=True)], as in [test_strict_mode]. *)
Definition StrictModel : Class :=
  define "StrictModel" "StrictModel" [BSquema] [("number", TClass int_t)] []
    (MkConfig true false default_encoders default_decoders) Squema_attrs.

(** [class Sub(Outer): label: str; number: bool = False] *)
Definition Sub : Class :=
  define "Sub" "Sub" [BSchema Outer] [("label", TClass str_t); ("number", TClass bool_t)]
    [("number", VBool false)] default_config Squema_attrs.

Definition date_t : PyType := MkType "date" "date" true [object_t].
(** [class Day(date)] and [class Holiday(Day)] *)
Definition Day_t : PyType := MkType "Day" "Day" true [date_t].
Definition Holiday_t : PyType := MkType "Holiday" "Holiday" true [Day_t].

(** The store in which [Config.encoders] and [Config.decoders] are the
    dictionaries at 0 and 1, and a caller's dictionary of overrides is at 2. *)
Definition cls : ConfigClass.ClassAttrs := ConfigClass.MkClassAttrs 0%nat 1%nat.
Definition heap : ConfigClass.Heap :=
  <[2%nat := {["set" := "sorted"]}]>
    (<[1%nat := default_decoders]> (<[0%nat := default_encoders]> ∅)).
End Samples.

(** ** Squema.__reversed__ *)

Module SquemaIter.

End SquemaIter.

(** ** The inherited part of a class, in declaration order *)

Module Inherited.
Import MetaSquema.

(** The entry for [key] of the first base, in the order of the class
    statement, that is a schema and has one; [table] is [cfields] or
    [cann]. *)
Fixpoint first_base_with {A : Type} (table : Class -> list (string * A))
    (key : string) (bases : list Base) : option A :=
  match bases with
  | [] => None
  | BSchema c :: rest =>
      match odict_get key (table c) with
      | Some x => Some x
      | None => first_base_with table key rest
      end
  | _ :: rest => first_base_with table key rest
  end.
End Inherited.

(** ** Config.options *)

Module ConfigMethods.
Import ConfigClass.

(** What [options] yields next to the name of an option: a flag, or the
    dictionary [tmp] (its entries; the order of a [dict] is not kept). *)
Inductive OptionValue : Type :=
| OFlag (b : bool)
| OEntries (entries : Registry).

(** The dictionary [tmp] of lines 74-79: the entries of [obj] that [cls]
    does not have with the same value. *)
Definition differing (obj cls : Registry) : Registry :=
  filter (fun kv => cls !! kv.1 <> Some kv.2) obj.

(** Lines 70-72, for one attribute; the class has [strict = False] and
    [mutable = False]. *)
Definition flag_option (name : string) (value : option bool)
    : list (string * OptionValue) :=
  if bool_decide (default false value <> false)
  then [(name, OFlag (default false value))] else [].

(** Lines 80-81. *)
Definition entries_option (name : string) (tmp : Registry)
    : list (string * OptionValue) :=
  if bool_decide (tmp <> ∅) then [(name, OEntries tmp)] else [].

(** [options], lines 69-81, as the list of what the generator yields. *)
Definition options (cls : ClassAttrs) (h : Heap) (self : Self)
    : option (list (string * OptionValue)) :=
  obj_e ← h !! get_encoders cls self;
  cls_e ← h !! cls_encoders cls;
  obj_d ← h !! get_decoders cls self;
  cls_d ← h !! cls_decoders cls;
  Some (flag_option "strict" (self_strict self)
        ++ flag_option "mutable" (self_mutable self)
        ++ entries_option "encoders" (differing obj_e cls_e)
        ++ entries_option "decoders" (differing obj_d cls_d)).
End ConfigMethods.

(** ** parser *)

Module Parser.
Import Stdlib.Strings.Ascii.

(** The regular expressions of lines 28-29 use three kinds of atoms. *)
Inductive Token : Type :=
| Digit                          (* \d *)
| Lit (c : Ascii.ascii)                (* a character that stands for itself *)
| OneOf (cs : list Ascii.ascii).       (* a set of characters *)

(** A pattern is a sequence of capturing groups and of atoms outside any
    group. *)
Inductive Item : Type :=
| Group (ts : list Token)
| Plain (t : Token).

(** A text is a sequence of 8-bit characters (Latin-1), among which the
    decimal digits are [0] to [9]. *)
Definition is_digit (c : Ascii.ascii) : bool :=
  (48 <=? Ascii.nat_of_ascii c)%nat && (Ascii.nat_of_ascii c <=? 57)%nat.

Definition token_matches (t : Token) (c : Ascii.ascii) : bool :=
  match t with
  | Digit => is_digit c
  | Lit c' => Ascii.eqb c c'
  | OneOf cs => existsb (Ascii.eqb c) cs
  end.

(** The atoms [ts] at the head of [text]: the text they match and what
    follows it. *)
Fixpoint match_tokens (ts : list Token) (text : string) : option (string * string) :=
  match ts with
  | [] => Some (EmptyString, text)
  | t :: ts' =>
      match text with
      | EmptyString => None
      | String c rest =>
          if token_matches t c then
            '(m, rest') ← match_tokens ts' rest;
            Some (String c m, rest')
          else None
      end
  end.

(** [regex.match(text).groups()]: the pattern is matched at the start of
    the text, and what follows the match is not looked at. *)
Fixpoint match_items (items : list Item) (text : string) : option (list string) :=
  match items with
  | [] => Some []
  | Group ts :: items' =>
      '(m, rest) ← match_tokens ts text;
      groups ← match_items items' rest;
      Some (m :: groups)
  | Plain t :: items' =>
      '(_, rest) ← match_tokens [t] text;
      match_items items' rest
  end.

(** [(\d{4})-(\d\d)-(\d\d)] *)
Definition date_pattern : list Item :=
  [Group [Digit; Digit; Digit; Digit]; Plain (Lit "-"%char);
   Group [Digit; Digit]; Plain (Lit "-"%char); Group [Digit; Digit]].

(** [(\d\d):(\d\d):(\d\d)] *)
Definition time_pattern : list Item :=
  [Group [Digit; Digit]; Plain (Lit ":"%char);
   Group [Digit; Digit]; Plain (Lit ":"%char); Group [Digit; Digit]].

(** The date pattern, [[T ]], the time pattern. *)
Definition datetime_pattern : list Item :=
  date_pattern ++ [Plain (OneOf ["T"; " "]%char)] ++ time_pattern.

Definition date : PyType := MkType "date" "date" true [object_t].
Definition time : PyType := MkType "time" "time" true [object_t].
Definition datetime : PyType := MkType "datetime" "datetime" true [date].

(** The dictionary [patterns], keyed by the three classes. *)
Definition patterns (entity : PyType) : option (list Item) :=
  if type_is entity date then Some date_pattern
  else if type_is entity time then Some time_pattern
  else if type_is entity datetime then Some datetime_pattern
  else None.

Definition digit_value (c : Ascii.ascii) : Z := Z.of_nat (Ascii.nat_of_ascii c) - 48.

(** [int(text)] for a text of digits. *)
Definition int (text : string) : Z :=
  fold_left (fun acc c => acc * 10 + digit_value c) (String.list_ascii_of_string text) 0.

Definition is_AttributeError (e : Exn) : bool :=
  match kind_of e with KAttributeError => true | _ => false end.

(** The [ValueError] of line 26. *)
Definition not_iso (text : string) : Exn :=
  Builtin KValueError (text +:+ " is not a valid iso-formatted date/time").

Section parser.
(** Calling one of the three classes with integers. *)
Variable new : PyType -> list Z -> result Value.

(** [matcher], lines 22-26, for the compiled pattern [regex]. *)
Definition matcher (entity : PyType) (regex : list Item) (value : Value)
    : result Value :=
  match value with
  | VStr text =>
      try_except
        (match match_items regex text with
         | Some groups => new entity (map int groups)
         | None =>
             Raise (Builtin KAttributeError
                      "'NoneType' object has no attribute 'groups'")
         end)
        is_AttributeError
        (fun _ => Raise (not_iso text))
  | _ => Raise (Builtin KTypeError "expected string or bytes-like object")
  end.

(** [parser], lines 21-31. *)
Definition parser (entity : PyType) : result (Value -> result Value) :=
  match patterns entity with
  | Some regex => Ok (matcher entity regex)
  | None => Raise (Builtin KKeyError (tname entity))
  end.
End parser.

(** The text of a number on a fixed count of digits, as [str] prints the
    fields of a date or a time. *)
Definition digit_char (d : Z) : Ascii.ascii := Ascii.ascii_of_nat (48 + Z.to_nat d).
Definition pad2 (n : Z) : string :=
  String (digit_char (n / 10)) (String (digit_char (n mod 10)) EmptyString).
Definition pad4 (n : Z) : string :=
  String (digit_char (n / 1000))
    (String (digit_char (n / 100 mod 10)) (pad2 (n mod 100))).

Definition iso_date (y m d : Z) : string :=
  pad4 y +:+ "-" +:+ pad2 m +:+ "-" +:+ pad2 d.
Definition iso_time (h m s : Z) : string :=
  pad2 h +:+ ":" +:+ pad2 m +:+ ":" +:+ pad2 s.


(** A class that accepts any integers and keeps them, to evaluate the
    parsers on. *)
Definition record (entity : PyType) (args : list Z) : result Value :=
  Ok (VObj entity (VList (map VInt args))).

(** A runtime in which the three functions registered by lines 50-54 are
    the parsers; [rt] gives the rest of the runtime. *)
Definition runtime (new : PyType -> list Z -> result Value) (rt : Runtime)
    : Runtime :=
  MkRuntime
    (fun f value =>
       if String.eqb f "parser(date)" then matcher new date date_pattern value
       else if String.eqb f "parser(time)" then matcher new time time_pattern value
       else if String.eqb f "parser(datetime)"
            then matcher new datetime datetime_pattern value
       else rt_call rt f value)
    (rt_construct rt) (rt_repr rt) (rt_hash rt).
End Parser.

(** * Properties *)

(** ** Ordered dictionaries *)

Section odict_facts.
Context {V : Type}.
Implicit Types (d : list (string * V)) (k : string) (v : V).

Lemma odict_mem_elem k d : odict_mem k d = true <-> k ∈ odict_keys d.
Proof.
  unfold odict_mem, odict_keys.
  induction d as [|[k' w] d IH]; simpl.
  - split; [discriminate | intros H; inversion H].
  - destruct (String.eqb_spec k k') as [->|Hne].
    + split; [intros _; apply list_elem_of_here | reflexivity].
    + rewrite IH. split.
      * intros H. now apply list_elem_of_further.
      * intros H. inversion H; [congruence | assumption].
Qed.

Lemma odict_mem_false k d : odict_mem k d = false <-> k ∉ odict_keys d.
Proof.
  rewrite <- odict_mem_elem. destruct (odict_mem k d); split; congruence.
Qed.

Lemma odict_get_mem k d : odict_mem k d = true <-> is_Some (odict_get k d).
Proof.
  unfold odict_mem. destruct (odict_get k d); split; try discriminate; eauto.
  intros [? ?]. discriminate.
Qed.

Lemma odict_keys_set k v d :
  odict_mem k d = true -> odict_keys (odict_set k v d) = odict_keys d.
Proof.
  unfold odict_mem, odict_keys.
  induction d as [|[k' w] d IH]; simpl; [discriminate|].
  destruct (String.eqb_spec k k') as [->|Hne]; simpl; [reflexivity|].
  intros H. now rewrite IH.
Qed.

Lemma odict_keys_set_new k v d :
  odict_mem k d = false -> odict_keys (odict_set k v d) = odict_keys d ++ [k].
Proof.
  unfold odict_mem, odict_keys.
  induction d as [|[k' w] d IH]; simpl; [reflexivity|].
  destruct (String.eqb_spec k k') as [->|Hne]; simpl; [discriminate|].
  intros H. now rewrite IH.
Qed.

Lemma odict_mem_set k k' v d :
  odict_mem k' d = true -> odict_mem k (odict_set k' v d) = odict_mem k d.
Proof.
  intros H. apply eq_true_iff_eq.
  now rewrite !odict_mem_elem, odict_keys_set.
Qed.

Lemma odict_get_set k v d : odict_get k (odict_set k v d) = Some v.
Proof.
  induction d as [|[k' w] d IH]; simpl.
  - now rewrite String.eqb_refl.
  - destruct (String.eqb_spec k k') as [->|Hne]; simpl.
    + now rewrite String.eqb_refl.
    + destruct (String.eqb_spec k k'); [congruence | assumption].
Qed.

Lemma odict_get_set_ne k k' v d :
  k <> k' -> odict_get k (odict_set k' v d) = odict_get k d.
Proof.
  intros Hne. induction d as [|[k'' w] d IH]; simpl.
  - destruct (String.eqb_spec k k'); [congruence | reflexivity].
  - destruct (String.eqb_spec k' k'') as [->|Hne']; simpl.
    + destruct (String.eqb_spec k k''); [congruence | reflexivity].
    + now rewrite IH.
Qed.


(** Two assignments to different keys that are both there commute. *)
Lemma odict_set_comm k1 k2 v1 v2 d :
  k1 <> k2 -> odict_mem k1 d = true -> odict_mem k2 d = true ->
  odict_set k1 v1 (odict_set k2 v2 d) = odict_set k2 v2 (odict_set k1 v1 d).
Proof.
  intros Hne. unfold odict_mem.
  induction d as [|[k w] d IH]; simpl; [discriminate|].
  destruct (String.eqb_spec k1 k) as [->|H1], (String.eqb_spec k2 k) as [->|H2];
    simpl; try congruence.
  - intros _ _. rewrite String.eqb_refl.
    destruct (String.eqb_spec k2 k); [congruence | reflexivity].
  - intros _ _. rewrite String.eqb_refl.
    destruct (String.eqb_spec k1 k); [congruence | reflexivity].
  - intros Hm1 Hm2.
    destruct (String.eqb_spec k1 k), (String.eqb_spec k2 k); try congruence.
    now rewrite IH.
Qed.

Lemma odict_keys_update d other :
  (forall k, k ∈ odict_keys other -> k ∈ odict_keys d) ->
  odict_keys (odict_update d other) = odict_keys d.
Proof.
  unfold odict_update. revert d.
  induction other as [|[k v] other IH]; intros d Hin; simpl; [reflexivity|].
  assert (Hk : odict_mem k d = true).
  { apply odict_mem_elem, Hin. simpl. apply list_elem_of_here. }
  rewrite IH; [now apply odict_keys_set|].
  intros k' Hk'. rewrite odict_keys_set by assumption.
  apply Hin. simpl. now apply list_elem_of_further.
Qed.
End odict_facts.

(** ** Construction *)

Section init_facts.
Variable coerce_field : string -> Value -> result Value.
Variable c : Class.
Abbreviation init_kwargs := (Squema.init_kwargs coerce_field c).

(** The loop of the constructor assigns to keys that are there: the keys
    of the table and their order never change. *)
Lemma init_kwargs_keys kwargs values values' :
  init_kwargs kwargs values = Ok values' ->
  odict_keys values' = odict_keys values.
Proof.
  revert values. induction kwargs as [|[key v] rest IH]; intros values; simpl.
  - congruence.
  - destruct (odict_mem key values) eqn:Hmem.
    + unfold_bind. destruct (coerce_field key v) as [x|e]; [|discriminate].
      intros H. apply IH in H. now rewrite H, odict_keys_set.
    + destruct (strict (ccfg c)); [discriminate | apply IH].
Qed.

Lemma init_kwargs_app l1 l2 values :
  init_kwargs (l1 ++ l2) values = init_kwargs l1 values ≫= init_kwargs l2.
Proof.
  revert values. induction l1 as [|[key v] l1 IH]; intros values; simpl.
  - reflexivity.
  - destruct (odict_mem key values).
    + unfold_bind. destruct (coerce_field key v); [apply IH | reflexivity].
    + destruct (strict (ccfg c)); [reflexivity | apply IH].
Qed.

(** A keyword that names no key of the table is skipped when the policy
    is not strict. *)
Lemma init_kwargs_skip l1 l2 key v values :
  strict (ccfg c) = false -> odict_mem key values = false ->
  init_kwargs (l1 ++ (key, v) :: l2) values = init_kwargs (l1 ++ l2) values.
Proof.
  intros Hs Hmem. rewrite !init_kwargs_app.
  destruct (init_kwargs l1 values) as [values1|e] eqn:H1; [|reflexivity].
  unfold_bind. simpl.
  assert (Hmem1 : odict_mem key values1 = false).
  { apply odict_mem_false. rewrite (init_kwargs_keys _ _ _ H1).
    now apply odict_mem_false. }
  now rewrite Hmem1, Hs.
Qed.

(** The order of the keywords does not matter to a construction that
    succeeds. *)
Lemma init_kwargs_perm kwargs kwargs' :
  kwargs ≡ₚ kwargs' -> NoDup (map fst kwargs) ->
  forall values values',
    init_kwargs kwargs values = Ok values' ->
    init_kwargs kwargs' values = Ok values'.
Proof.
  induction 1 as [|[key v] l l' Hp IH|[k1 v1] [k2 v2] l|l l' l'' Hp1 IH1 Hp2 IH2];
    intros Hnd values values'; simpl.
  - trivial.
  - apply NoDup_cons in Hnd as [_ Hnd].
    destruct (odict_mem key values).
    + unfold_bind. destruct (coerce_field key v); [|discriminate]. now apply IH.
    + destruct (strict (ccfg c)); [discriminate | now apply IH].
  - simpl in Hnd. apply NoDup_cons in Hnd as [Hne _].
    assert (k2 <> k1) by (intros ->; apply Hne, list_elem_of_here).
    destruct (odict_mem k1 values) eqn:Hm1, (odict_mem k2 values) eqn:Hm2;
      unfold_bind;
      repeat match goal with
        | |- context [odict_mem ?k (odict_set ?k' ?x ?d)] =>
            rewrite (odict_mem_set k k' x d) by assumption
        | Hm : odict_mem ?k ?d = _ |- context [odict_mem ?k ?d] => rewrite Hm
        | |- context [coerce_field ?k ?x] =>
            destruct (coerce_field k x); try discriminate
        | |- context [strict (ccfg c)] =>
            destruct (strict (ccfg c)); try discriminate
        end;
      trivial.
    now rewrite odict_set_comm by (congruence || assumption).
  - intros H. apply IH2.
    + now rewrite <- Hp1.
    + now apply IH1.
Qed.

Lemma odict_mem_perm (key : string) (l l' : list (string * Value)) :
  l ≡ₚ l' -> odict_mem key l = odict_mem key l'.
Proof.
  intros Hp. apply eq_true_iff_eq. rewrite !odict_mem_elem.
  unfold odict_keys. now rewrite Hp.
Qed.

(** A construction that succeeds gives an instance of the class whose
    table has the keys of the field table, in their order, and whose
    [__dict__] holds nothing else. *)
Lemma init_with_keys args kwargs self :
  Squema.init_with coerce_field c args kwargs = Ok self ->
  icls self = c /\ iextra self = [] /\
  odict_keys (ivalues self) = odict_keys (cfields c).
Proof.
  unfold Squema.init_with.
  destruct (negb (bool_decide (args = [])) && negb (bool_decide (kwargs = [])));
    [discriminate|].
  unfold_bind.
  destruct (if negb (bool_decide (args = [])) then _ else _) as [kw|]; [|discriminate].
  destruct (init_kwargs kw (cfields c)) as [values|] eqn:Hloop; [|discriminate].
  apply init_kwargs_keys in Hloop.
  destruct (strict (ccfg c)).
  - destruct (negb _); [discriminate|]. intros [= <-]. auto.
  - intros [= <-]. auto.
Qed.
End init_facts.

(** ** Iteration *)

Section items_facts.
Variable rt : Runtime.

(** Iteration follows the order of the table. *)
Lemma keys_sublist (self : Instance) :
  Squema.keys self `sublist_of` odict_keys (ivalues self).
Proof.
  unfold Squema.keys, Squema.items, odict_keys.
  destruct (strict (ccfg (icls self))); [apply sublist_nil_l|].
  induction (ivalues self) as [|[k v] l IH]; simpl; [constructor|].
  destruct (negb (is_unset v)); simpl; now constructor.
Qed.

Lemma keys_lenient (self : Instance) (k : string) :
  strict (ccfg (icls self)) = false -> NoDup (odict_keys (ivalues self)) ->
  k ∈ Squema.keys self <->
  exists v, odict_get k (ivalues self) = Some v /\ v <> UNSET.
Proof.
  unfold Squema.keys, Squema.items, odict_keys. intros -> .
  induction (ivalues self) as [|[k' v'] l IH]; simpl; intros Hnd.
  - split; [intros H; inversion H | intros (? & [=] & _)].
  - apply NoDup_cons in Hnd as [Hk' Hnd]. specialize (IH Hnd).
    assert (Hin : k' ∈ map fst (List.filter (fun kv => negb (is_unset kv.2)) l)
                  -> False).
    { intros H. apply Hk'. apply list_elem_of_fmap in H as ([k0 v0] & -> & H).
      apply list_elem_of_In, filter_In in H as [H _].
      apply list_elem_of_fmap. exists (k0, v0).
      split; [reflexivity | now apply list_elem_of_In]. }
    destruct (String.eqb_spec k k') as [->|Hne].
    + destruct v'; simpl; split;
        try (intros _; eexists; split; [reflexivity | discriminate]);
        try (intros _; apply list_elem_of_here).
      * intros H. now apply Hin in H.
      * intros (? & [= <-] & Hv). congruence.
    + rewrite <- IH. destruct (negb (is_unset v')); simpl; [|reflexivity].
      split.
      * intros H. inversion H; [congruence | assumption].
      * intros H. now apply list_elem_of_further.
Qed.

Lemma contains_false (self : Instance) (key : string) :
  odict_mem key (ivalues self) = false -> Squema.contains self key = false.
Proof.
  intros Hmem. unfold Squema.contains, Squema.__iter__.
  apply not_true_is_false. intros H.
  apply existsb_exists in H as (k & Hk & Heq).
  apply String.eqb_eq in Heq as <-.
  apply odict_mem_false in Hmem. apply Hmem.
  eapply elem_of_sublist; [apply list_elem_of_In, Hk | apply keys_sublist].
Qed.

(** Under a strict policy iteration yields nothing, whatever the table
    holds: [StrictModel(1)] prints as [StrictModel()]. *)
Lemma items_strict (self : Instance) :
  strict (ccfg (icls self)) = true -> Squema.items self = [].
Proof. unfold Squema.items. now intros ->. Qed.

Lemma StrictModel_repr :
  Squema.call rt Samples.StrictModel [VInt 1] []
    = Ok (MkInstance Samples.StrictModel [("number", VInt 1)] [])
  /\ Squema.__repr__ rt (MkInstance Samples.StrictModel [("number", VInt 1)] [])
     = "StrictModel()".
Proof. split; reflexivity. Qed.

(** [repr] of an instance is its [__repr__]. *)
Lemma repr_instance (self : Instance) :
  Squema.repr rt (to_value self) = Squema.__repr__ rt self.
Proof.
  unfold Squema.__repr__, Squema.items, to_value. simpl.
  destruct (strict (ccfg (icls self))); [simpl; reflexivity|].
  match goal with
  | |- _ +:+ _ +:+ String.concat _ ?l1 +:+ _ = _ +:+ _ +:+ String.concat _ ?l2 +:+ _ =>
      assert (Heach : l1 = l2); [|now rewrite Heach]
  end.
  induction (ivalues self) as [|[k v] l IH]; simpl; [reflexivity|].
  destruct (negb (is_unset v)); simpl; now rewrite IH.
Qed.
End items_facts.

(** ** copy *)

(** C1 (the code does not do this).  [copy] hands the item view of the
    table to the constructor as its keyword arguments; a view is no mapping,
    so the call raises [TypeError] before [__init__] runs, for every
    instance: no copy is ever produced. *)
Theorem copy_raises_TypeError (rt : Runtime) (self : Instance) :
  Squema.copy rt self =
  Raise (Builtin KTypeError "argument after ** must be a mapping").
Proof. reflexivity. Qed.

(** ** Unknown keyword arguments *)

Lemma odict_mem_app_skip {V : Type} (k key : string) (v : V)
    (l1 l2 : list (string * V)) :
  key <> k -> odict_mem k (l1 ++ (key, v) :: l2) = odict_mem k (l1 ++ l2).
Proof.
  intros Hne. unfold odict_mem.
  induction l1 as [|[k' w] l1 IH]; simpl.
  - destruct (String.eqb_spec k key); [congruence | reflexivity].
  - destruct (String.eqb k k'); [reflexivity | apply IH].
Qed.

(** C2, as the code has it.  When the policy is not strict, a keyword
    argument whose name is not a declared field is dropped: the call behaves
    as the call without it.  On the instance built, the name is absent from
    iteration, subscripting it raises [KeyError], and reading it as an
    attribute raises [AttributeError] (unless the class itself has an
    attribute of that name): the value supplied is stored nowhere. *)
Theorem unknown_keyword_is_dropped (rt : Runtime) (c : Class)
    (before after : list (string * Value)) (key : string) (v : Value) :
  strict (ccfg c) = false ->
  odict_mem key (cfields c) = false ->
  key <> "self" ->
  Squema.call rt c [] (before ++ (key, v) :: after)
    = Squema.call rt c [] (before ++ after)
  /\ forall self,
       Squema.call rt c [] (before ++ (key, v) :: after) = Ok self ->
       Squema.contains self key = false
       /\ Squema.__getitem__ self key = Raise (NotAKey key (cname c))
       /\ (odict_get key (cattrs c) = None -> key <> "__values__" ->
           Squema.attr_get self key = Raise (NotAnAttribute key (cname c))).
Proof.
  intros Hs Hmem Hself.
  assert (Heq : Squema.call rt c [] (before ++ (key, v) :: after)
                = Squema.call rt c [] (before ++ after)).
  { unfold Squema.call, Squema.call_with.
    rewrite odict_mem_app_skip by assumption.
    destruct (odict_mem "self" (before ++ after)); [reflexivity|].
    unfold Squema.init_with. simpl. unfold_bind.
    now rewrite init_kwargs_skip. }
  split; [exact Heq|].
  intros self Hcall.
  unfold Squema.call, Squema.call_with in Hcall.
  destruct (odict_mem "self" _); [discriminate|].
  apply init_with_keys in Hcall as (Hc & Hx & Hk).
  assert (Hm : odict_mem key (ivalues self) = false).
  { apply odict_mem_false. rewrite Hk. now apply odict_mem_false. }
  split; [now apply contains_false|].
  split.
  - unfold Squema.__getitem__. now rewrite Hm, Hc.
  - intros Hattr Hv. unfold Squema.attr_get, Squema.ordinary_lookup.
    destruct (String.eqb_spec key "__values__"); [congruence|].
    rewrite Hx, Hc. simpl. rewrite Hattr.
    unfold Squema.__getattr__. unfold odict_mem in Hm.
    destruct (odict_get key (ivalues self)); [discriminate|].
    now rewrite Hc.
Qed.

Lemma unknown_keyword_is_dropped_witness :
  Squema.call Samples.rt Samples.Entity []
      ([("boolean", VBool true)] ++ ("extra", VBool true) :: [])
    = Squema.call Samples.rt Samples.Entity [] ([("boolean", VBool true)] ++ [])
  /\ forall self,
       Squema.call Samples.rt Samples.Entity []
         ([("boolean", VBool true)] ++ ("extra", VBool true) :: []) = Ok self ->
       Squema.contains self "extra" = false
       /\ Squema.__getitem__ self "extra"
          = Raise (NotAKey "extra" (cname Samples.Entity))
       /\ (odict_get "extra" (cattrs Samples.Entity) = None ->
           "extra" <> "__values__" ->
           Squema.attr_get self "extra"
           = Raise (NotAnAttribute "extra" (cname Samples.Entity))).
Proof.
  apply (unknown_keyword_is_dropped Samples.rt Samples.Entity
           [("boolean", VBool true)] [] "extra" (VBool true));
    [reflexivity | reflexivity | discriminate].
Defined.

(** C2 as stated fails: [Entity(boolean=True, extra=True)] succeeds, and
    reading [extra] on the result raises [AttributeError] instead of
    returning [True] (as [test_extra_values] expects). *)
Lemma unknown_keyword_not_readable :
  exists self,
    Squema.call Samples.rt Samples.Entity []
      [("boolean", VBool true); ("extra", VBool true)] = Ok self
    /\ Squema.attr_get self "extra" = Raise (NotAnAttribute "extra" "Entity")
    /\ Squema.attr_get self "extra" <> Ok (VBool true).
Proof.
  eexists. split; [reflexivity|]. split; [reflexivity | discriminate].
Qed.

(** ** encode *)

Section encode_facts.
Variable rt : Runtime.
Variable cls : Class.

(** [bases] yields the direct bases and nothing else. *)
Lemma bases_direct (item : PyType) : Squema.bases item = tbases item.
Proof.
  destruct item as [i n p bs]. simpl.
  induction bs as [|b bs IH]; [reflexivity | now rewrite IH].
Qed.

Lemma encode_exact_type (value : Value) (f : FuncId) :
  encoders (ccfg cls) !! tid (type_of value) = Some f ->
  Squema.encode rt cls value = rt_call rt f value.
Proof. unfold Squema.encode. now intros ->. Qed.

Lemma encode_instance (self : Instance) :
  encoders (ccfg cls) !! cid (icls self) = None ->
  Squema.encode rt cls (to_value self) = Ok (VDict (Squema.items self)).
Proof.
  unfold Squema.encode, to_value, cid. simpl. intros ->.
  now destruct self.
Qed.

Lemma encode_direct_base (t : PyType) (payload : Value) (f : FuncId) :
  encoders (ccfg cls) !! tid t = None ->
  Squema.first_encoder (encoders (ccfg cls)) (tbases t) = Some f ->
  Squema.encode rt cls (VObj t payload) = rt_call rt f (VObj t payload).
Proof.
  unfold Squema.encode. simpl. intros -> . rewrite bases_direct. now intros ->.
Qed.

(** No encoder for the type or for one of its direct bases: the call
    fails, whatever is registered for the classes further up. *)
Lemma encode_unsupported (t : PyType) (payload : Value) :
  encoders (ccfg cls) !! tid t = None ->
  Squema.first_encoder (encoders (ccfg cls)) (tbases t) = None ->
  Squema.encode rt cls (VObj t payload) = Raise (NoEncoder (tname t)).
Proof.
  unfold Squema.encode. simpl. intros -> . rewrite bases_direct. now intros ->.
Qed.
End encode_facts.

(** C3 (the code does not do this).  With the default policy, an instance
    of [Day], a direct subclass of [date], is encoded by the encoder of
    [date]; an instance of [Holiday], a subclass of [Day], is refused,
    although [date] is among its ancestors and has an encoder: the walk
    stops at the direct bases. *)
Theorem encode_stops_at_direct_bases (rt : Runtime) :
  encoders (ccfg Samples.Entity) !! "date" = Some "str"
  /\ issubclass Samples.Holiday_t Samples.date_t = true
  /\ Squema.encode rt Samples.Entity (VObj Samples.Day_t VNone)
     = rt_call rt "str" (VObj Samples.Day_t VNone)
  /\ Squema.encode rt Samples.Entity (VObj Samples.Holiday_t VNone)
     = Raise (NoEncoder "Holiday").
Proof. repeat split; reflexivity. Qed.

(** ** The values table *)

Section table_facts.
Variable rt : Runtime.

(** What [object.__setattr__] returns when it returns. *)
Lemma object_setattr_plain (self : Instance) (key : string) (value : Value) :
  key ∉ Squema.reserved ->
  Squema.object_setattr self key value
  = Ok (MkInstance (icls self) (ivalues self) (odict_set key value (iextra self))).
Proof.
  intros Hr. unfold Squema.object_setattr.
  assert (Hne : forall name, name ∈ Squema.reserved -> String.eqb key name = false).
  { intros name Hin. apply String.eqb_neq. now intros ->. }
  rewrite !Hne by (apply list_elem_of_In; simpl; tauto).
  rewrite bool_decide_eq_false_2; [reflexivity|].
  intros Hin. apply Hr. unfold Squema.reserved. apply elem_of_app. now right.
Qed.

Lemma object_setattr_Ok (self self' : Instance) (key : string) (value : Value) :
  Squema.object_setattr self key value = Ok self' ->
  (key = "__values__" /\ exists table,
     value = VDict table /\ self' = MkInstance (icls self) table (iextra self))
  \/ ((key ∉ Squema.reserved)
      /\ self' = MkInstance (icls self) (ivalues self)
                   (odict_set key value (iextra self))).
Proof.
  unfold Squema.object_setattr.
  destruct (String.eqb_spec key "__class__") as [->|H1];
    [destruct (issubclass _ _); discriminate|].
  destruct (String.eqb_spec key "__dict__") as [->|H2];
    [destruct (issubclass _ _); discriminate|].
  destruct (String.eqb_spec key "__weakref__") as [->|H3]; [discriminate|].
  destruct (String.eqb_spec key "__values__") as [->|H4].
  - destruct value; try discriminate. intros [= <-]. left. eauto.
  - destruct (bool_decide (key ∈ Squema.shadowing)) eqn:Hs; [discriminate|].
    apply bool_decide_eq_false in Hs. intros [= <-]. right. split; [|reflexivity].
    unfold Squema.reserved. rewrite elem_of_app, !elem_of_cons, elem_of_nil.
    tauto.
Qed.

Lemma plain_set (self : Instance) (key : string) (value : Value) :
  key ∉ Squema.reserved -> Squema.plain self ->
  Squema.plain
    (MkInstance (icls self) (ivalues self) (odict_set key value (iextra self))).
Proof.
  unfold Squema.plain. simpl. intros Hkey.
  induction (iextra self) as [|[k w] l IH]; simpl; intros Hl.
  - now repeat constructor.
  - apply Forall_cons in Hl as [Hk Hl].
    destruct (String.eqb key k); constructor; auto.
Qed.

(** An assignment keeps the keys of the table, unless it is the table
    itself that is assigned, under the name [__values__]. *)
Lemma setattr_keys (self self' : Instance) (key : string) (value : Value) :
  odict_mem key (ivalues self) = true \/ key <> "__values__" ->
  Squema.__setattr__ rt self key value = Ok self' ->
  icls self' = icls self /\
  odict_keys (ivalues self') = odict_keys (ivalues self).
Proof.
  intros Hkey. unfold Squema.__setattr__.
  destruct (odict_mem key (ivalues self)) eqn:Hmem.
  - destruct (mutable (ccfg (icls self))); [|discriminate].
    unfold_bind. destruct (Squema.__getval__ rt self key value); [|discriminate].
    intros [= <-]. simpl. split; [reflexivity | now apply odict_keys_set].
  - destruct (negb (strict (ccfg (icls self)))); [|discriminate].
    intros H. apply object_setattr_Ok in H as [[-> _] | [_ ->]]; [|auto].
    destruct Hkey as [Hkey | Hkey]; [discriminate | contradiction].
Qed.

Lemma setitem_keys (self self' : Instance) (key : string) (value : Value) :
  Squema.__setitem__ rt self key value = Ok self' ->
  icls self' = icls self /\
  odict_keys (ivalues self') = odict_keys (ivalues self).
Proof.
  unfold Squema.__setitem__.
  destruct (odict_mem key (ivalues self)) eqn:Hmem; [|discriminate].
  apply setattr_keys. now left.
Qed.

Lemma update_keys (self self' : Instance) (data : list (string * Value)) :
  Squema.update self data = Ok self' ->
  icls self' = icls self /\
  odict_keys (ivalues self') = odict_keys (ivalues self).
Proof.
  unfold Squema.update.
  destruct (strict (ccfg (icls self)) && _); [discriminate|].
  intros [= <-]. simpl. split; [reflexivity|].
  apply odict_keys_update. intros k Hk.
  unfold odict_keys in Hk. apply list_elem_of_fmap in Hk as ([k' v] & -> & Hin).
  apply list_elem_of_In, filter_In in Hin as [_ Hin].
  now apply odict_mem_elem.
Qed.

(** What [__delitem__] does, for any key. *)
Lemma delitem_result (self : Instance) (key : string) :
  Squema.__delitem__ self key =
  if mutable (ccfg (icls self)) then
    Ok (MkInstance (icls self) (odict_set key UNSET (ivalues self)) (iextra self))
  else Raise (Immutable (cname (icls self))).
Proof. unfold Squema.__delitem__. now destruct (mutable _). Qed.

Lemma delitem_unknown_key (self : Instance) (key : string) :
  mutable (ccfg (icls self)) = true -> odict_mem key (ivalues self) = false ->
  exists self',
    Squema.__delitem__ self key = Ok self' /\
    odict_keys (ivalues self') = odict_keys (ivalues self) ++ [key].
Proof.
  intros Hm Hk. rewrite delitem_result, Hm. eexists. split; [reflexivity|].
  now apply odict_keys_set_new.
Qed.
End table_facts.

(** C4 (the code does not do this).  The table keeps the keys of the field
    table under construction, assignment to a field and [update]
    ([init_with_keys], [setattr_keys], [setitem_keys], [update_keys]), but
    [__delitem__] does
    not look whether the key is one: on the mutable [Model(1)],
    [del model["bogus"]] succeeds and leaves a table with the keys [number]
    and [bogus], while the field table has [number] alone. *)
Theorem delitem_adds_unknown_key :
  exists self self',
    Squema.call Samples.rt Samples.Model [VInt 1] [] = Ok self
    /\ odict_keys (ivalues self) = odict_keys (cfields Samples.Model)
    /\ Squema.__delitem__ self "bogus" = Ok self'
    /\ icls self' = Samples.Model
    /\ odict_keys (cfields Samples.Model) = ["number"]
    /\ odict_keys (ivalues self') = ["number"; "bogus"]
    /\ Squema.__len__ self' = 2%nat.
Proof. do 2 eexists. repeat split; reflexivity. Qed.

(** ** Deleting a field *)




(** ** Positional arguments *)

Lemma zip_take_keys {A B : Type} (ks : list A) (args : list B) :
  zip ks (take (length ks) args) = zip ks args.
Proof.
  revert args. induction ks as [|k ks IH]; intros [|a args]; simpl; try reflexivity.
  now rewrite IH.
Qed.

Lemma odict_set_middle {V : Type} (k : string) (v w : V)
    (done todo : list (string * V)) :
  k ∉ odict_keys done ->
  odict_set k v (done ++ (k, w) :: todo) = done ++ (k, v) :: todo.
Proof.
  unfold odict_keys. induction done as [|[k' w'] done IH]; simpl; intros Hk.
  - now rewrite String.eqb_refl.
  - destruct (String.eqb_spec k k') as [->|Hne].
    + exfalso. apply Hk, list_elem_of_here.
    + rewrite IH; [reflexivity|]. intros H. now apply Hk, list_elem_of_further.
Qed.

Section positional.
Variable coerce_field : string -> Value -> result Value.
Variable c : Class.

(** Zipping the keys of the table with values that all coerce fills the
    table from the left, one key per value. *)
Lemma init_kwargs_zip (todo done : list (string * Value))
    (args xs : list Value) :
  NoDup (odict_keys (done ++ todo)) ->
  (length todo <= length args)%nat ->
  Forall2 (fun kv x => coerce_field kv.1 kv.2 = Ok x) (zip (odict_keys todo) args) xs ->
  Squema.init_kwargs coerce_field c (zip (odict_keys todo) args) (done ++ todo)
  = Ok (done ++ zip (odict_keys todo) xs).
Proof.
  revert done args xs. induction todo as [|[k d0] todo IH]; intros done args xs.
  - simpl. intros _ _ H. now inversion H.
  - intros Hnd Hlen H. destruct args as [|a args]; [simpl in Hlen; lia|].
    simpl in H. inversion H as [|? x ? xs' Hx Hxs]; subst. simpl in Hx |- *.
    assert (Hk : k ∉ odict_keys done).
    { unfold odict_keys in *. rewrite fmap_app in Hnd.
      apply NoDup_app in Hnd as (_ & Hd & _). intros Hin.
      apply (Hd k Hin). simpl. apply list_elem_of_here. }
    assert (Hmem : odict_mem k (done ++ (k, d0) :: todo) = true).
    { apply odict_mem_elem. unfold odict_keys. rewrite fmap_app.
      apply elem_of_app. right. simpl. apply list_elem_of_here. }
    rewrite Hmem, Hx. unfold_bind. rewrite odict_set_middle by assumption.
    replace (done ++ (k, x) :: todo) with ((done ++ [(k, x)]) ++ todo)
      by now rewrite <- app_assoc.
    rewrite (IH (done ++ [(k, x)]) args xs').
    + now rewrite <- app_assoc.
    + unfold odict_keys in *. rewrite <- app_assoc, fmap_app in *.
      simpl in *. exact Hnd.
    + simpl in Hlen. lia.
    + exact Hxs.
Qed.
End positional.

(** C10.  When the policy is not strict, a call with more positional values
    than the class has fields is the call with the excess values left out;
    and when the value at each position coerces for the field at that
    position, the call returns the instance whose table holds, in the order
    of the field table, the coerced values. *)
Theorem excess_positional_discarded (rt : Runtime) (c : Class)
    (args xs : list Value) :
  strict (ccfg c) = false ->
  NoDup (odict_keys (cfields c)) ->
  (length (cfields c) < length args)%nat ->
  Squema.call rt c args [] = Squema.call rt c (take (length (cfields c)) args) []
  /\ (Forall2 (fun kv x => Squema.getval rt c kv.1 kv.2 = Ok x)
        (zip (odict_keys (cfields c)) args) xs ->
      Squema.call rt c args []
      = Ok (MkInstance c (zip (odict_keys (cfields c)) xs) [])).
Proof.
  intros Hs Hnd Hlen.
  assert (Hargs : bool_decide (args = []) = false).
  { destruct args; [simpl in Hlen; lia | reflexivity]. }
  assert (Hcall : Squema.call rt c args []
                  = values ← Squema.init_kwargs (Squema.getval rt c) c
                               (zip (odict_keys (cfields c)) args) (cfields c);
                    Ok (MkInstance c values [])).
  { unfold Squema.call, Squema.call_with, Squema.init_with. simpl.
    rewrite Hargs, Hs. simpl. unfold_bind.
    now destruct (Squema.init_kwargs _ _ _ _). }
  split.
  - rewrite Hcall.
    unfold Squema.call, Squema.call_with, Squema.init_with. simpl.
    rewrite Hs. simpl. unfold_bind.
    destruct (bool_decide (take (length (cfields c)) args = [])) eqn:Htake; simpl.
    + apply bool_decide_eq_true in Htake.
      assert (Hnil : cfields c = []).
      { apply (f_equal length) in Htake. rewrite length_take in Htake.
        simpl in Htake. assert (Hz : length (cfields c) = 0%nat) by lia.
        now apply nil_length_inv. }
      rewrite Hnil. reflexivity.
    + replace (length (cfields c)) with (length (odict_keys (cfields c)))
        by (unfold odict_keys; apply length_map).
      rewrite zip_take_keys.
      now destruct (Squema.init_kwargs _ _ _ _).
  - intros Hall. rewrite Hcall.
    pose proof (init_kwargs_zip (Squema.getval rt c) c (cfields c) [] args xs)
      as Hzip.
    simpl in Hzip. rewrite Hzip; [reflexivity | assumption | lia | assumption].
Qed.

Lemma excess_positional_discarded_witness :
  Squema.call Samples.rt Samples.Entity [VBool true; VInt 3] []
  = Squema.call Samples.rt Samples.Entity
      (take (length (cfields Samples.Entity)) [VBool true; VInt 3]) []
  /\ (Forall2 (fun kv x => Squema.getval Samples.rt Samples.Entity kv.1 kv.2 = Ok x)
        (zip (odict_keys (cfields Samples.Entity)) [VBool true; VInt 3])
        [VBool true] ->
      Squema.call Samples.rt Samples.Entity [VBool true; VInt 3] []
      = Ok (MkInstance Samples.Entity
              (zip (odict_keys (cfields Samples.Entity)) [VBool true]) [])).
Proof.
  apply (excess_positional_discarded Samples.rt Samples.Entity
           [VBool true; VInt 3] [VBool true]).
  - reflexivity.
  - apply NoDup_cons. split; [intros H; inversion H | apply NoDup_nil_2].
  - simpl. lia.
Defined.

(** ** Coercion to a nested schema *)

Section nested.
Variable rt : Runtime.

Lemma init_kwargs_ext (f g : string -> Value -> result Value) (c : Class) :
  (forall k v, f k v = g k v) ->
  forall kwargs values,
    Squema.init_kwargs f c kwargs values = Squema.init_kwargs g c kwargs values.
Proof.
  intros Hfg kwargs. induction kwargs as [|[k v] rest IH]; intros values; simpl.
  - reflexivity.
  - rewrite Hfg. unfold_bind.
    destruct (odict_mem k values); [|destruct (strict _); auto].
    destruct (g k v); auto.
Qed.

Lemma call_with_ext (f g : string -> Value -> result Value) (c : Class) :
  (forall k v, f k v = g k v) ->
  forall args kwargs,
    Squema.call_with f c args kwargs = Squema.call_with g c args kwargs.
Proof.
  intros Hfg args kwargs. unfold Squema.call_with, Squema.init_with.
  destruct (odict_mem "self" kwargs); [reflexivity|].
  destruct (_ && _); [reflexivity|]. unfold_bind.
  destruct (if negb (bool_decide (args = [])) then _ else _); [|reflexivity].
  now rewrite (init_kwargs_ext f g c Hfg).
Qed.

(** The fourth branch of [__getval__]: the nested class is called with
    the raw value unpacked, and a [TypeError] on the way is answered by
    reading [value.__name__] for the message. *)
Lemma coerce_schema (cfg : Config) (c : Class) (key : string) (value : Value) :
  isinstance value (TSchema c) = false ->
  decoders cfg !! cid c = None ->
  Squema.coerce rt cfg (TSchema c) key value =
  try_except
    (kwargs ← Squema.unpack_kwargs value;
     instance ← Squema.call rt c [] kwargs;
     Ok (to_value instance))
    is_TypeError
    (fun _ => name ← Squema.name_attr value; Raise (MustBeMapping key name)).
Proof.
  intros Hi Hd. simpl. simpl in Hi, Hd. rewrite Hi, Hd. simpl.
  f_equal. unfold_bind.
  destruct (Squema.unpack_kwargs value) as [kwargs|]; [|reflexivity].
  unfold Squema.call.
  rewrite (call_with_ext _ (Squema.getval rt c) c); [reflexivity|].
  intros k v. unfold Squema.getval.
  induction (cann c) as [|[k' u] ann IH]; simpl; [reflexivity|].
  destruct (String.eqb k k'); [reflexivity | apply IH].
Qed.

(** A raw value that is a dictionary: the nested instance is built from
    its entries. *)
Lemma coerce_schema_dict (cfg : Config) (c : Class) (key : string)
    (kvs : list (string * Value)) (instance : Instance) :
  decoders cfg !! cid c = None ->
  Squema.call rt c [] kvs = Ok instance ->
  Squema.coerce rt cfg (TSchema c) key (VDict kvs) = Ok (to_value instance).
Proof.
  intros Hd Hcall. rewrite coerce_schema by (reflexivity || assumption).
  simpl. unfold_bind. now rewrite Hcall.
Qed.

(** For such a raw value the handler itself fails: what leaves
    [__getval__] is the [AttributeError] of [value.__name__]. *)
Lemma coerce_schema_nameless (cfg : Config) (c : Class) (key : string)
    (value : Value) :
  nameless value = true ->
  decoders cfg !! cid c = None ->
  Squema.coerce rt cfg (TSchema c) key value
  = Raise (Builtin KAttributeError "__name__").
Proof.
  intros Hn Hd. rewrite coerce_schema; [| |assumption].
  - destruct value; try discriminate; reflexivity.
  - destruct value; try discriminate; reflexivity.
Qed.

(** Only a class given as the raw value gets the message of line 167. *)
Lemma coerce_schema_class (cfg : Config) (c : Class) (key : string) (t : PyType) :
  decoders cfg !! cid c = None ->
  Squema.coerce rt cfg (TSchema c) key (VType t)
  = Raise (MustBeMapping key (VStr (tname t))).
Proof. intros Hd. now rewrite coerce_schema. Qed.
End nested.

(** C8 (the code does not do this).  For the field [entity: Entity] of
    [Outer], a dictionary is coerced to the [Entity] built from it; the
    integer [5] and the list [[True]] make the handler of line 166 read
    [value.__name__], which they do not have, so [__getval__] raises
    [AttributeError] and not the [TypeError] of line 167. *)
Theorem nested_non_mapping_raises_AttributeError (rt : Runtime) :
  Squema.getval rt Samples.Outer "entity" (VDict [("boolean", VBool true)])
    = Ok (VInst Samples.Entity [("boolean", VBool true)] [])
  /\ Squema.getval rt Samples.Outer "entity" (VInt 5)
     = Raise (Builtin KAttributeError "__name__")
  /\ Squema.getval rt Samples.Outer "entity" (VList [VBool true])
     = Raise (Builtin KAttributeError "__name__")
  /\ kind_of (Builtin KAttributeError "__name__") <> KTypeError.
Proof. repeat split; try reflexivity. discriminate. Qed.

(** ** The order of the fields *)

Section field_order.
Import MetaSquema.

Lemma existsb_eqb_elem (k : string) (l : list string) :
  existsb (String.eqb k) l = true <-> k ∈ l.
Proof.
  rewrite existsb_exists. split.
  - intros (x & Hx & Heq). apply String.eqb_eq in Heq as ->.
    now apply list_elem_of_In.
  - intros H. exists k. split; [now apply list_elem_of_In | apply String.eqb_refl].
Qed.

Lemma elem_of_rev {A : Type} (x : A) (l : list A) : x ∈ rev l <-> x ∈ l.
Proof. rewrite !list_elem_of_In. symmetry. apply in_rev. Qed.

Lemma append_new_nil (acc : list string) : append_new acc [] = acc.
Proof. unfold append_new. simpl. apply app_nil_r. Qed.

Lemma append_new_old (acc names : list string) (k : string) :
  k ∈ acc -> append_new acc (k :: names) = append_new acc names.
Proof.
  intros Hk. unfold append_new. simpl.
  apply existsb_eqb_elem in Hk. now rewrite Hk.
Qed.

Lemma append_new_fresh (acc names : list string) (k : string) :
  k ∉ acc -> k ∉ names ->
  append_new acc (k :: names) = append_new (acc ++ [k]) names.
Proof.
  intros Hk Hn. unfold append_new. simpl.
  destruct (existsb (String.eqb k) acc) eqn:He.
  { apply existsb_eqb_elem in He. contradiction. }
  simpl. rewrite <- app_assoc. simpl. do 2 f_equal.
  apply filter_ext_in. intros k' Hk'. f_equal.
  rewrite existsb_app. simpl.
  destruct (String.eqb_spec k' k) as [->|_].
  - exfalso. now apply Hn, list_elem_of_In.
  - now rewrite !orb_false_r.
Qed.

Lemma append_new_NoDup (acc names : list string) :
  NoDup acc -> NoDup names -> NoDup (append_new acc names).
Proof.
  revert acc. induction names as [|k names IH]; intros acc Ha Hn.
  - now rewrite append_new_nil.
  - apply NoDup_cons in Hn as [Hk Hn].
    destruct (decide (k ∈ acc)) as [Hin|Hout].
    + rewrite append_new_old by assumption. now apply IH.
    + rewrite append_new_fresh by assumption. apply IH; [|assumption].
      apply NoDup_app. repeat split; [assumption | | apply NoDup_singleton].
      intros x Hx Hx'. apply list_elem_of_singleton in Hx' as ->. contradiction.
Qed.

(** A loop whose step leaves a key that is there in its place and puts a
    new one at the end orders the keys as the specification says. *)
Lemma fold_keys {X : Type} (key_of : X -> string)
    (step : list (string * Value) -> X -> list (string * Value)) :
  (forall d x,
     odict_keys (step d x) =
     if odict_mem (key_of x) d then odict_keys d else odict_keys d ++ [key_of x]) ->
  forall xs d,
    NoDup (map key_of xs) ->
    odict_keys (fold_left step xs d) = append_new (odict_keys d) (map key_of xs).
Proof.
  intros Hstep xs. induction xs as [|x xs IH]; intros d Hnd; simpl.
  - now rewrite append_new_nil.
  - simpl in Hnd. apply NoDup_cons in Hnd as [Hx Hnd].
    rewrite IH by assumption. rewrite Hstep.
    destruct (odict_mem (key_of x) d) eqn:Hm.
    + apply odict_mem_elem in Hm. now rewrite append_new_old.
    + apply odict_mem_false in Hm. now rewrite append_new_fresh.
Qed.

Lemma odict_keys_update_spec (d other : list (string * Value)) :
  NoDup (odict_keys other) ->
  odict_keys (odict_update d other) = append_new (odict_keys d) (odict_keys other).
Proof.
  intros Hnd. unfold odict_update.
  apply (fold_keys fst (fun acc kv => odict_set kv.1 kv.2 acc)); [|exact Hnd].
  intros d' [k v]. simpl. destruct (odict_mem k d') eqn:Hm.
  - now apply odict_keys_set.
  - now apply odict_keys_set_new.
Qed.

Lemma declare_keys (namespace d : list (string * Value)) (key : string) :
  odict_keys (declare namespace d key) =
  if odict_mem key d then odict_keys d else odict_keys d ++ [key].
Proof.
  unfold declare.
  destruct (odict_get key namespace), (odict_mem key d) eqn:Hm; simpl;
    auto using odict_keys_set, odict_keys_set_new.
Qed.

Lemma inherit_keys (bs : list Base)
    (acc : list (string * Value) * list (string * TypeSpec)) :
  (forall b, BSchema b ∈ bs -> NoDup (odict_keys (cfields b))) ->
  odict_keys (fold_left inherit bs acc).1 =
  fold_left append_new (map schema_fields bs) (odict_keys acc.1).
Proof.
  revert acc. induction bs as [|b bs IH]; intros acc Hnd; simpl; [reflexivity|].
  rewrite IH by (intros b' Hb'; apply Hnd; now apply list_elem_of_further).
  f_equal. destruct b as [|cb|t]; simpl; try now rewrite append_new_nil.
  apply odict_keys_update_spec, Hnd, list_elem_of_here.
Qed.

(** The field table [__new__] builds has the order the specification
    describes. *)
Lemma new_field_order (bases : list Base) (annotations : list (string * TypeSpec))
    (namespace : list (string * Value)) :
  NoDup (map fst annotations) ->
  (forall b, BSchema b ∈ bases -> NoDup (odict_keys (cfields b))) ->
  odict_keys (__new__ bases annotations namespace).1.1
  = field_order_spec bases annotations.
Proof.
  intros Hann Hbases. unfold __new__, field_order_spec.
  destruct (fold_left inherit (rev bases) ([], [])) as [fields types] eqn:Hfold.
  simpl. rewrite fold_left_app. simpl.
  rewrite (fold_keys id (declare namespace)).
  - rewrite map_id. f_equal.
    change fields with (fields, types).1. rewrite <- Hfold.
    apply inherit_keys. intros b Hb. apply Hbases.
    exact (proj1 (elem_of_rev _ _) Hb).
  - intros d x. apply declare_keys.
  - now rewrite map_id.
Qed.

Lemma fold_append_new_NoDup (ls : list (list string)) (acc : list string) :
  NoDup acc -> Forall NoDup ls -> NoDup (fold_left append_new ls acc).
Proof.
  revert acc. induction ls as [|l ls IH]; intros acc Ha Hls; simpl; [assumption|].
  apply Forall_cons in Hls as [Hl Hls]. apply IH; [|assumption].
  now apply append_new_NoDup.
Qed.

Lemma field_order_spec_NoDup (bases : list Base)
    (annotations : list (string * TypeSpec)) :
  NoDup (map fst annotations) ->
  (forall b, BSchema b ∈ bases -> NoDup (odict_keys (cfields b))) ->
  NoDup (field_order_spec bases annotations).
Proof.
  intros Hann Hbases. unfold field_order_spec.
  apply fold_append_new_NoDup; [apply NoDup_nil_2|].
  apply Forall_app. split; [|now repeat constructor].
  apply Forall_forall. intros l Hl.
  apply list_elem_of_fmap in Hl as (b & -> & Hb).
  apply (proj1 (elem_of_rev _ _)) in Hb. destruct b; simpl; try apply NoDup_nil_2.
  now apply Hbases.
Qed.

Lemma define_fields (id name : string) (bases : list Base)
    (annotations : list (string * TypeSpec)) (namespace : list (string * Value))
    (config : Config) (inherited : list (string * Value)) :
  cfields (define id name bases annotations namespace config inherited)
  = (__new__ bases annotations namespace).1.1
  /\ ccfg (define id name bases annotations namespace config inherited) = config.
Proof.
  unfold define. now destruct (__new__ bases annotations namespace) as [[? ?] ?].
Qed.
End field_order.

(** C7.  For the class that a class statement creates, the field table is
    ordered as the specification says: the bases contribute in reverse
    declaration order, then the class's own declarations, a name already
    there keeping its place and a new one going to the end.  A call with
    keyword arguments that succeeds gives the same instance whatever the
    order of the keywords; the table of the instance has the keys of the
    field table in their order, and iteration yields keys in that order
    (when the policy is not strict: exactly the keys whose value is not
    [UNSET]). *)
Theorem items_follow_field_order (rt : Runtime) (id name : string)
    (bases : list MetaSquema.Base) (annotations : list (string * TypeSpec))
    (namespace : list (string * Value)) (config : Config)
    (inherited : list (string * Value)) (V V' : list (string * Value))
    (self : Instance) :
  let c := MetaSquema.define id name bases annotations namespace config inherited in
  NoDup (map fst annotations) ->
  (forall b, MetaSquema.BSchema b ∈ bases -> NoDup (odict_keys (cfields b))) ->
  NoDup (map fst V) ->
  V ≡ₚ V' ->
  Squema.call rt c [] V = Ok self ->
  odict_keys (cfields c) = MetaSquema.field_order_spec bases annotations
  /\ Squema.call rt c [] V' = Ok self
  /\ odict_keys (ivalues self) = odict_keys (cfields c)
  /\ map fst (Squema.items self) `sublist_of` odict_keys (cfields c)
  /\ (strict config = false ->
      forall k, k ∈ map fst (Squema.items self) <->
                exists v, odict_get k (ivalues self) = Some v /\ v <> UNSET).
Proof.
  intros c Hann Hbases HV Hperm Hcall.
  destruct (define_fields id name bases annotations namespace config inherited)
    as [Hfields Hcfg].
  fold c in Hfields, Hcfg.
  assert (Horder : odict_keys (cfields c)
                   = MetaSquema.field_order_spec bases annotations).
  { rewrite Hfields. now apply new_field_order. }
  assert (Hself : icls self = c /\ iextra self = [] /\
                  odict_keys (ivalues self) = odict_keys (cfields c)).
  { unfold Squema.call, Squema.call_with in Hcall.
    destruct (odict_mem "self" V); [discriminate|].
    now apply init_with_keys in Hcall. }
  destruct Hself as (Hc & _ & Hkeys).
  split; [exact Horder|]. split; [|split; [exact Hkeys|split]].
  - unfold Squema.call, Squema.call_with in *.
    rewrite <- (odict_mem_perm "self" V V' Hperm).
    destruct (odict_mem "self" V); [discriminate|].
    unfold Squema.init_with in *. simpl in *. unfold_bind.
    destruct (Squema.init_kwargs (Squema.getval rt c) c V (cfields c))
      as [values|] eqn:Hloop; [|discriminate].
    now rewrite (init_kwargs_perm _ c V V' Hperm HV _ _ Hloop).
  - rewrite <- Hkeys. apply keys_sublist.
  - intros Hs k. apply keys_lenient.
    + now rewrite Hc, Hcfg.
    + rewrite Hkeys, Horder. now apply field_order_spec_NoDup.
Qed.

Lemma items_follow_field_order_witness :
  odict_keys (cfields Samples.Sub)
    = MetaSquema.field_order_spec [MetaSquema.BSchema Samples.Outer]
        [("label", TClass str_t); ("number", TClass bool_t)]
  /\ Squema.call Samples.rt Samples.Sub []
       [("number", VBool true); ("label", VStr "a")]
     = Ok (MkInstance Samples.Sub
             [("number", VBool true); ("entity", UNSET); ("label", VStr "a")] [])
  /\ odict_keys [("number", VBool true); ("entity", UNSET); ("label", VStr "a")]
     = odict_keys (cfields Samples.Sub)
  /\ map fst (Squema.items
                (MkInstance Samples.Sub
                   [("number", VBool true); ("entity", UNSET); ("label", VStr "a")] []))
     `sublist_of` odict_keys (cfields Samples.Sub)
  /\ (strict default_config = false ->
      forall k,
        k ∈ map fst (Squema.items
                       (MkInstance Samples.Sub
                          [("number", VBool true); ("entity", UNSET); ("label", VStr "a")]
                          []))
        <-> exists v,
              odict_get k [("number", VBool true); ("entity", UNSET); ("label", VStr "a")]
              = Some v /\ v <> UNSET).
Proof.
  apply (items_follow_field_order Samples.rt "Sub" "Sub" [MetaSquema.BSchema Samples.Outer]
           [("label", TClass str_t); ("number", TClass bool_t)]
           [("number", VBool false)] default_config Samples.Squema_attrs
           [("label", VStr "a"); ("number", VBool true)]
           [("number", VBool true); ("label", VStr "a")]).
  - apply (bool_decide_unpack _). vm_compute. exact I.
  - intros b Hb. apply list_elem_of_singleton in Hb. injection Hb as ->.
    apply (bool_decide_unpack _). vm_compute. exact I.
  - apply (bool_decide_unpack _). vm_compute. exact I.
  - apply Permutation_swap.
  - reflexivity.
Defined.

(** ** Equality and hashing *)



Lemma class_is_sym (a b : Class) : class_is a b = class_is b a.
Proof. unfold class_is, type_is. apply String.eqb_sym. Qed.

Lemma class_is_refl (a : Class) : class_is a a = true.
Proof. unfold class_is, type_is. apply String.eqb_refl. Qed.

Lemma eq_unfold (rt : Runtime) (a b : Instance) :
  Squema.__eq__ rt a b = true <->
  class_is (icls a) (icls b) = true /\
  rt_hash rt (Squema.__repr__ rt a) = rt_hash rt (Squema.__repr__ rt b).
Proof.
  unfold Squema.__eq__, Squema.__hash__.
  rewrite andb_true_iff, Z.eqb_eq, (class_is_sym (icls b)). intuition congruence.
Qed.



Section collision.
Variable rt : Runtime.




End collision.


(** ** Config *)

Section config_facts.
Import ConfigClass.

Lemma dict_copy_spec (h : Heap) (d : loc) (entries : Registry) :
  h !! d = Some entries ->
  exists d',
    dict_copy h d = Some (<[d' := entries]> h, d') /\ h !! d' = None.
Proof.
  intros Hd. exists (fresh (dom h)). unfold dict_copy. rewrite Hd. simpl.
  split; [reflexivity|]. apply not_elem_of_dom, is_fresh.
Qed.

Lemma dict_update_insert (h : Heap) (d : loc) (entries other : Registry) :
  dict_update (<[d := entries]> h) d other = <[d := other ∪ entries]> h.
Proof. unfold dict_update. now rewrite alter_insert_eq. Qed.

Lemma or_empty_insert (h : Heap) (d : loc) (entries : Registry)
    (arg : option loc) :
  h !! d = None -> (forall l, arg = Some l -> is_Some (h !! l)) ->
  or_empty (<[d := entries]> h) arg = or_empty h arg
  /\ is_Some (or_empty h arg).
Proof.
  intros Hd Harg. destruct arg as [l|]; simpl; [|eauto].
  destruct (Harg l eq_refl) as [x Hx]. split; [|eauto].
  apply lookup_insert_ne. intros ->. congruence.
Qed.
End config_facts.

(** C9.  In a store where [Config.encoders] and [Config.decoders] are
    dictionaries, and so are the overrides the caller passes (if any),
    [Config(...)] returns; every dictionary that was in the store,
    the two of the class among them, has the entries it had; the
    dictionaries of the new object are new ones; and each holds the
    overrides on top of the entries of the class's dictionary: a key that is
    not overridden maps to what the class maps it to. *)
Theorem Config_init_copies_defaults (cls : ConfigClass.ClassAttrs)
    (h : ConfigClass.Heap) (strict mutable : bool)
    (encoders decoders : option ConfigClass.loc) (enc0 dec0 : Registry) :
  h !! ConfigClass.cls_encoders cls = Some enc0 ->
  h !! ConfigClass.cls_decoders cls = Some dec0 ->
  (forall l, encoders = Some l -> is_Some (h !! l)) ->
  (forall l, decoders = Some l -> is_Some (h !! l)) ->
  exists h' self e d over_e over_d,
    ConfigClass.__init__ cls h strict mutable encoders decoders = Some (h', self)
    /\ ConfigClass.or_empty h encoders = Some over_e
    /\ ConfigClass.or_empty h decoders = Some over_d
    /\ (forall l, is_Some (h !! l) -> h' !! l = h !! l)
    /\ h' !! ConfigClass.cls_encoders cls = Some enc0
    /\ h' !! ConfigClass.cls_decoders cls = Some dec0
    /\ ConfigClass.self_encoders self = Some e
    /\ ConfigClass.self_decoders self = Some d
    /\ h !! e = None /\ h !! d = None /\ e <> d
    /\ h' !! e = Some (over_e ∪ enc0)
    /\ h' !! d = Some (over_d ∪ dec0)
    /\ (forall k, over_e !! k = None -> (over_e ∪ enc0) !! k = enc0 !! k)
    /\ (forall k, over_d !! k = None -> (over_d ∪ dec0) !! k = dec0 !! k)
    /\ (forall k f, over_e !! k = Some f -> (over_e ∪ enc0) !! k = Some f)
    /\ (forall k f, over_d !! k = Some f -> (over_d ∪ dec0) !! k = Some f)
    /\ ConfigClass.read cls h' self
       = Some (MkConfig strict mutable (over_e ∪ enc0) (over_d ∪ dec0)).
Proof.
  intros Henc Hdec Harg_e Harg_d.
  destruct (dict_copy_spec h _ enc0 Henc) as (e & Hcopy_e & He).
  destruct (or_empty_insert h e enc0 encoders He Harg_e) as [Hor_e [over_e Hover_e]].
  set (h1 := <[e := over_e ∪ enc0]> h).
  assert (Hne_e : e <> ConfigClass.cls_decoders cls) by (intros ->; congruence).
  assert (Hdec1 : h1 !! ConfigClass.cls_decoders cls = Some dec0).
  { unfold h1. now rewrite lookup_insert_ne. }
  destruct (dict_copy_spec h1 _ dec0 Hdec1) as (d & Hcopy_d & Hd).
  assert (Hed : e <> d).
  { intros ->. unfold h1 in Hd. now rewrite lookup_insert_eq in Hd. }
  assert (Hd0 : h !! d = None).
  { unfold h1 in Hd. now rewrite lookup_insert_ne in Hd. }
  assert (Harg_d1 : forall l, decoders = Some l -> is_Some (h1 !! l)).
  { intros l Hl. destruct (Harg_d l Hl) as [x Hx]. exists x.
    unfold h1. rewrite lookup_insert_ne; [exact Hx | intros ->; congruence]. }
  destruct (or_empty_insert h1 d dec0 decoders Hd Harg_d1) as [Hor_d [over_d Hover_d]].
  assert (Hover_d0 : ConfigClass.or_empty h decoders = Some over_d).
  { destruct decoders as [l|]; simpl in *; [|exact Hover_d].
    unfold h1 in Hover_d. destruct (Harg_d l eq_refl) as [x Hx].
    rewrite lookup_insert_ne in Hover_d; [exact Hover_d | intros ->; congruence]. }
  set (h2 := <[d := over_d ∪ dec0]> h1).
  exists h2, (ConfigClass.MkSelf (Some strict) (Some mutable) (Some e) (Some d)),
    e, d, over_e, over_d.
  assert (Hframe : forall l, is_Some (h !! l) -> h2 !! l = h !! l).
  { intros l [x Hx]. unfold h2, h1.
    rewrite !lookup_insert_ne; [reflexivity | intros ->; congruence
                                | intros ->; congruence]. }
  split.
  { unfold ConfigClass.__init__, ConfigClass.get_encoders, ConfigClass.get_decoders.
    simpl. rewrite Hcopy_e. simpl.
    rewrite Hor_e, Hover_e. simpl. rewrite dict_update_insert. fold h1.
    rewrite Hcopy_d. simpl. rewrite Hor_d, Hover_d. simpl.
    now rewrite dict_update_insert. }
  split; [exact Hover_e|]. split; [exact Hover_d0|]. split; [exact Hframe|].
  split; [rewrite Hframe; eauto|]. split; [rewrite Hframe; eauto|].
  do 2 (split; [reflexivity|]).
  split; [exact He|]. split; [exact Hd0|]. split; [exact Hed|].
  assert (He2 : h2 !! e = Some (over_e ∪ enc0)).
  { unfold h2, h1. rewrite lookup_insert_ne by congruence. apply lookup_insert_eq. }
  assert (Hd2 : h2 !! d = Some (over_d ∪ dec0)) by apply lookup_insert_eq.
  split; [exact He2|]. split; [exact Hd2|].
  split; [intros k Hk; now apply lookup_union_r|].
  split; [intros k Hk; now apply lookup_union_r|].
  split; [intros k f Hk; now apply lookup_union_Some_l|].
  split; [intros k f Hk; now apply lookup_union_Some_l|].
  unfold ConfigClass.read, ConfigClass.get_encoders, ConfigClass.get_decoders.
  simpl. now rewrite He2, Hd2.
Qed.

Lemma Config_init_copies_defaults_witness :
  exists h' self e d over_e over_d,
    ConfigClass.__init__ Samples.cls Samples.heap false true (Some 2%nat) None
      = Some (h', self)
    /\ ConfigClass.or_empty Samples.heap (Some 2%nat) = Some over_e
    /\ ConfigClass.or_empty Samples.heap None = Some over_d
    /\ (forall l, is_Some (Samples.heap !! l) -> h' !! l = Samples.heap !! l)
    /\ h' !! ConfigClass.cls_encoders Samples.cls = Some default_encoders
    /\ h' !! ConfigClass.cls_decoders Samples.cls = Some default_decoders
    /\ ConfigClass.self_encoders self = Some e
    /\ ConfigClass.self_decoders self = Some d
    /\ Samples.heap !! e = None /\ Samples.heap !! d = None /\ e <> d
    /\ h' !! e = Some (over_e ∪ default_encoders)
    /\ h' !! d = Some (over_d ∪ default_decoders)
    /\ (forall k, over_e !! k = None ->
                  (over_e ∪ default_encoders) !! k = default_encoders !! k)
    /\ (forall k, over_d !! k = None ->
                  (over_d ∪ default_decoders) !! k = default_decoders !! k)
    /\ (forall k f, over_e !! k = Some f ->
                    (over_e ∪ default_encoders) !! k = Some f)
    /\ (forall k f, over_d !! k = Some f ->
                    (over_d ∪ default_decoders) !! k = Some f)
    /\ ConfigClass.read Samples.cls h' self
       = Some (MkConfig false true (over_e ∪ default_encoders)
                 (over_d ∪ default_decoders)).
Proof.
  apply (Config_init_copies_defaults Samples.cls Samples.heap false true
           (Some 2%nat) None default_encoders default_decoders).
  - reflexivity.
  - reflexivity.
  - intros l [= <-]. eexists. reflexivity.
  - intros l [=].
Defined.

(** * Further properties *)

(** ** What a construction stores *)

Section stored.
Variable coerce_field : string -> Value -> result Value.
Variable c : Class.

Lemma odict_keys_fst_elem {V : Type} (k : string) (d : list (string * V)) :
  odict_get k d = None <-> k ∉ map fst d.
Proof.
  change (map fst d) with (odict_keys d). rewrite <- odict_mem_false.
  unfold odict_mem. destruct (odict_get k d); split; congruence.
Qed.

(** After the loop of the constructor, a key of the table holds the coerced
    value of its keyword, or what it held before when no keyword names it. *)
Lemma init_kwargs_lookup (kwargs : list (string * Value)) :
  NoDup (map fst kwargs) ->
  forall values values' key,
    Squema.init_kwargs coerce_field c kwargs values = Ok values' ->
    odict_mem key values = true ->
    match odict_get key kwargs with
    | Some v => exists x, coerce_field key v = Ok x /\ odict_get key values' = Some x
    | None => odict_get key values' = odict_get key values
    end.
Proof.
  induction kwargs as [|[k v] rest IH]; intros Hnd values values' key; simpl.
  - now intros [= <-] _.
  - simpl in Hnd. apply NoDup_cons in Hnd as [Hk Hnd]. intros Hloop Hmem.
    destruct (String.eqb_spec key k) as [->|Hne].
    + rewrite Hmem in Hloop. unfold_bind.
      destruct (coerce_field k v) as [x|] eqn:Hx; [|discriminate].
      exists x. split; [reflexivity|].
      specialize (IH Hnd _ _ k Hloop).
      rewrite odict_mem_set in IH by assumption. specialize (IH Hmem).
      apply odict_keys_fst_elem in Hk. rewrite Hk in IH.
      now rewrite IH, odict_get_set.
    + destruct (odict_mem k values) eqn:Hmk.
      * unfold_bind. destruct (coerce_field k v) as [x|]; [|discriminate].
        specialize (IH Hnd _ _ key Hloop).
        rewrite odict_mem_set in IH by assumption. specialize (IH Hmem).
        now rewrite odict_get_set_ne in IH by assumption.
      * destruct (strict (ccfg c)); [discriminate|]. now apply IH.
Qed.

(** Under a strict policy the loop goes through only when every keyword
    names a key of the table. *)
Lemma init_kwargs_strict_known (kwargs : list (string * Value)) :
  strict (ccfg c) = true ->
  forall values values',
    Squema.init_kwargs coerce_field c kwargs values = Ok values' ->
    forall k, k ∈ map fst kwargs -> odict_mem k values = true.
Proof.
  intros Hs. induction kwargs as [|[k v] rest IH]; intros values values' Hloop k' Hk'.
  - inversion Hk'.
  - simpl in Hloop, Hk'. destruct (odict_mem k values) eqn:Hmk.
    + unfold_bind. destruct (coerce_field k v) as [x|]; [|discriminate].
      apply elem_of_cons in Hk' as [->|Hk']; [assumption|].
      specialize (IH _ _ Hloop k' Hk'). now rewrite odict_mem_set in IH.
    + now rewrite Hs in Hloop.
Qed.
End stored.

(** X1.  A call with keyword arguments that succeeds stores, for every
    declared field, the coerced value of the keyword that names it, and
    the default of the class when no keyword does. *)
Theorem call_stores_coerced_or_default (rt : Runtime) (c : Class)
    (kwargs : list (string * Value)) (self : Instance) (key : string) :
  NoDup (map fst kwargs) ->
  Squema.call rt c [] kwargs = Ok self ->
  odict_mem key (cfields c) = true ->
  match odict_get key kwargs with
  | Some v =>
      exists x, Squema.getval rt c key v = Ok x
                /\ Squema.__getitem__ self key = Ok x
  | None =>
      odict_get key (ivalues self) = odict_get key (cfields c)
  end.
Proof.
  intros Hnd Hcall Hkey.
  assert (Hself := Hcall). unfold Squema.call, Squema.call_with in Hself, Hcall.
  destruct (odict_mem "self" kwargs); [discriminate|].
  apply init_with_keys in Hself as (_ & _ & Hkeys).
  unfold Squema.init_with in Hcall. simpl in Hcall. unfold_bind.
  destruct (Squema.init_kwargs (Squema.getval rt c) c kwargs (cfields c))
    as [values|] eqn:Hloop; [|discriminate].
  assert (Hv : ivalues self = values).
  { destruct (strict (ccfg c)); [destruct (negb _); [discriminate|]|];
      now injection Hcall as <-. }
  pose proof (init_kwargs_lookup _ c kwargs Hnd _ _ key Hloop Hkey) as Hlook.
  rewrite <- Hv in Hlook.
  destruct (odict_get key kwargs) as [v|]; [|exact Hlook].
  destruct Hlook as (x & Hx & Hget). exists x. split; [exact Hx|].
  unfold Squema.__getitem__, Squema.__getattr__.
  assert (Hm : odict_mem key (ivalues self) = true).
  { apply odict_mem_elem. rewrite Hkeys. now apply odict_mem_elem. }
  now rewrite Hm, Hget.
Qed.

Lemma call_stores_coerced_or_default_witness :
  match odict_get "label" [("label", VStr "a")] with
  | Some v =>
      exists x, Squema.getval Samples.rt Samples.Sub "label" v = Ok x
                /\ Squema.__getitem__
                     (MkInstance Samples.Sub
                        [("number", VBool false); ("entity", UNSET);
                         ("label", VStr "a")] []) "label" = Ok x
  | None => True
  end
  /\ odict_get "number"
       (ivalues (MkInstance Samples.Sub
                   [("number", VBool false); ("entity", UNSET);
                    ("label", VStr "a")] []))
     = odict_get "number" (cfields Samples.Sub).
Proof.
  split.
  - apply (call_stores_coerced_or_default Samples.rt Samples.Sub
             [("label", VStr "a")] _ "label");
      [apply (bool_decide_unpack _); vm_compute; exact I | reflexivity | reflexivity].
  - apply (call_stores_coerced_or_default Samples.rt Samples.Sub
             [("label", VStr "a")] _ "number");
      [apply (bool_decide_unpack _); vm_compute; exact I | reflexivity | reflexivity].
Defined.

(** X2.  Under a strict policy a call that succeeds got no more positional
    values than there are fields and no keyword that is not a field, and
    leaves no field of the instance unset. *)
Theorem strict_call_is_complete (rt : Runtime) (c : Class) (args : list Value)
    (kwargs : list (string * Value)) (self : Instance) :
  strict (ccfg c) = true ->
  Squema.call rt c args kwargs = Ok self ->
  (length args <= length (cfields c))%nat
  /\ (forall k, k ∈ map fst kwargs -> odict_mem k (cfields c) = true)
  /\ Forall (fun kv => kv.2 <> UNSET) (ivalues self).
Proof.
  intros Hs Hcall. unfold Squema.call, Squema.call_with in Hcall.
  destruct (odict_mem "self" kwargs); [discriminate|].
  unfold Squema.init_with in Hcall. rewrite Hs in Hcall.
  destruct (negb (bool_decide (args = [])) && negb (bool_decide (kwargs = [])))
    eqn:Hboth; [discriminate|].
  unfold_bind.
  destruct (negb (bool_decide (args = []))) eqn:Hargs.
  - (* positional *)
    assert (Hkw : kwargs = []).
    { simpl in Hboth. apply negb_false_iff, bool_decide_eq_true in Hboth. exact Hboth. }
    destruct (length (cfields c) <? length args)%nat eqn:Hlen; [discriminate|].
    simpl in Hcall. apply Nat.ltb_ge in Hlen.
    revert Hcall.
    destruct (Squema.init_kwargs _ _ _ _) as [values|]; [|intros [=]].
    destruct (negb (bool_decide (map fst _ = []))) eqn:Hempty; [intros [=]|].
    intros [= <-]. simpl.
    split; [exact Hlen|]. split; [subst kwargs; intros k Hk; inversion Hk|].
    apply negb_false_iff, bool_decide_eq_true in Hempty.
    apply fmap_nil_inv in Hempty.
    apply Forall_forall. intros [k v] Hin Hv. simpl in Hv. subst v.
    assert (Hf : (k, UNSET) ∈ List.filter (fun kv => is_unset kv.2) values).
    { apply list_elem_of_In, filter_In. split; [now apply list_elem_of_In | reflexivity]. }
    rewrite Hempty in Hf. inversion Hf.
  - (* keywords *)
    apply negb_false_iff, bool_decide_eq_true in Hargs. subst args.
    revert Hcall.
    destruct (Squema.init_kwargs _ _ kwargs _) as [values|] eqn:Hloop; [|intros [=]].
    destruct (negb (bool_decide (map fst _ = []))) eqn:Hempty; [intros [=]|].
    intros [= <-]. simpl.
    split; [lia|]. split.
    + now apply (init_kwargs_strict_known _ c kwargs Hs _ _ Hloop).
    + apply negb_false_iff, bool_decide_eq_true in Hempty.
      apply fmap_nil_inv in Hempty.
      apply Forall_forall. intros [k v] Hin Hv. simpl in Hv. subst v.
      assert (Hf : (k, UNSET) ∈ List.filter (fun kv => is_unset kv.2) values).
      { apply list_elem_of_In, filter_In.
        split; [now apply list_elem_of_In | reflexivity]. }
      rewrite Hempty in Hf. inversion Hf.
Qed.

Lemma strict_call_is_complete_witness :
  (length [VInt 1] <= length (cfields Samples.StrictModel))%nat
  /\ (forall k, k ∈ map fst (@nil (string * Value)) ->
                odict_mem k (cfields Samples.StrictModel) = true)
  /\ Forall (fun kv => kv.2 <> UNSET)
       (ivalues (MkInstance Samples.StrictModel [("number", VInt 1)] [])).
Proof.
  apply (strict_call_is_complete Samples.rt Samples.StrictModel [VInt 1] []);
    reflexivity.
Defined.

(** ** Reading and writing fields *)

Section lookup_facts.
Context {V : Type}.
Implicit Types (d other : list (string * V)) (k : string).

Lemma odict_get_update k d other :
  NoDup (odict_keys other) ->
  odict_get k (odict_update d other) =
  match odict_get k other with
  | Some v => Some v
  | None => odict_get k d
  end.
Proof.
  unfold odict_update, odict_keys. revert d.
  induction other as [|[k0 v0] other IH]; intros d Hnd; simpl; [reflexivity|].
  simpl in Hnd. apply NoDup_cons in Hnd as [Hk0 Hnd]. rewrite IH by assumption.
  destruct (String.eqb_spec k k0) as [->|Hne].
  - apply odict_keys_fst_elem in Hk0. now rewrite Hk0, odict_get_set.
  - now rewrite odict_get_set_ne.
Qed.

(** Dropping the entries whose key fails a test does not change what the
    keys that pass it map to. *)
Lemma odict_get_filter (p : string -> bool) k d :
  odict_get k (List.filter (fun kv => p kv.1) d) =
  if p k then odict_get k d else None.
Proof.
  induction d as [|[k0 v0] d IH]; simpl; [now destruct (p k)|].
  destruct (p k0) eqn:Hp0; simpl; destruct (String.eqb_spec k k0) as [->|Hne];
    try assumption.
  - now rewrite Hp0.
  - rewrite IH, Hp0. reflexivity.
Qed.
End lookup_facts.



(** X4.  On an instance that is not mutable, no assignment to an attribute
    whose name is neither reserved nor an attribute of the class, no
    assignment by subscript and no deletion by subscript changes the table
    of values, whatever the name and the value; for a declared field both
    assignments raise the immutability [TypeError].  The name [__values__]
    is the way around: when the policy is not strict, assigning a
    dictionary to it replaces the table, mutable or not. *)
Theorem immutable_table_is_frozen (rt : Runtime) (self : Instance) :
  mutable (ccfg (icls self)) = false ->
  Squema.plain self ->
  forall (key : string) (value : Value),
    (key ∉ Squema.reserved ->
     odict_get key (cattrs (icls self)) = None ->
     forall self', Squema.__setattr__ rt self key value = Ok self' ->
                   ivalues self' = ivalues self /\ icls self' = icls self
                   /\ Squema.plain self')
    /\ (forall self', Squema.__setitem__ rt self key value = Ok self' -> False)
    /\ (forall self', Squema.__delitem__ self key = Ok self' -> False)
    /\ (odict_mem key (ivalues self) = true ->
        Squema.__setattr__ rt self key value = Raise (Immutable (cname (icls self)))
        /\ Squema.__setitem__ rt self key value
           = Raise (Immutable (cname (icls self))))
    /\ (strict (ccfg (icls self)) = false ->
        odict_mem "__values__" (ivalues self) = false ->
        forall table,
          Squema.__setattr__ rt self "__values__" (VDict table)
          = Ok (MkInstance (icls self) table (iextra self))).
Proof.
  intros Hm Hplain key value.
  assert (Htable : odict_mem key (ivalues self) = true ->
            Squema.__setattr__ rt self key value
            = Raise (Immutable (cname (icls self)))).
  { intros Hk. unfold Squema.__setattr__. now rewrite Hk, Hm. }
  split; [|split; [|split; [|split]]].
  - intros Hkey _ self'. unfold Squema.__setattr__. rewrite Hm.
    destruct (odict_mem key (ivalues self)); [discriminate|].
    destruct (negb (strict (ccfg (icls self)))); [|discriminate].
    rewrite object_setattr_plain by exact Hkey. intros [= <-]. simpl.
    split; [reflexivity|]. split; [reflexivity|].
    now apply plain_set.
  - intros self'. unfold Squema.__setitem__.
    destruct (odict_mem key (ivalues self)) eqn:Hk; [|discriminate].
    now rewrite Htable.
  - intros self'. rewrite delitem_result, Hm. discriminate.
  - intros Hk. unfold Squema.__setitem__. rewrite Hk. now split; apply Htable.
  - intros Hs Hk table. unfold Squema.__setattr__. now rewrite Hk, Hs.
Qed.

Lemma immutable_table_is_frozen_witness :
  ("attr" ∉ Squema.reserved ->
   odict_get "attr" (cattrs Samples.Entity) = None ->
   forall self',
     Squema.__setattr__ Samples.rt
       (MkInstance Samples.Entity [("boolean", VBool true)] []) "attr"
       (VBool false) = Ok self' ->
     ivalues self' = [("boolean", VBool true)] /\ icls self' = Samples.Entity
     /\ Squema.plain self')
  /\ (forall self',
        Squema.__setitem__ Samples.rt
          (MkInstance Samples.Entity [("boolean", VBool true)] []) "attr"
          (VBool false) = Ok self' -> False)
  /\ (forall self',
        Squema.__delitem__
          (MkInstance Samples.Entity [("boolean", VBool true)] []) "attr"
        = Ok self' -> False)
  /\ (odict_mem "attr" [("boolean", VBool true)] = true ->
      Squema.__setattr__ Samples.rt
        (MkInstance Samples.Entity [("boolean", VBool true)] []) "attr"
        (VBool false) = Raise (Immutable "Entity")
      /\ Squema.__setitem__ Samples.rt
           (MkInstance Samples.Entity [("boolean", VBool true)] []) "attr"
           (VBool false) = Raise (Immutable "Entity"))
  /\ (strict (ccfg Samples.Entity) = false ->
      odict_mem "__values__" [("boolean", VBool true)] = false ->
      forall table,
        Squema.__setattr__ Samples.rt
          (MkInstance Samples.Entity [("boolean", VBool true)] []) "__values__"
          (VDict table)
        = Ok (MkInstance Samples.Entity table [])).
Proof.
  exact (immutable_table_is_frozen Samples.rt
           (MkInstance Samples.Entity [("boolean", VBool true)] []) eq_refl
           (Forall_nil_2 _) "attr" (VBool false)).
Defined.



(** X6.  Under a strict policy [update] with a key that is not declared
    raises [ValueError] and stores nothing. *)
Theorem update_strict_rejects_unknown (self : Instance)
    (data : list (string * Value)) (key : string) :
  strict (ccfg (icls self)) = true ->
  key ∈ map fst data ->
  odict_mem key (ivalues self) = false ->
  Squema.update self data = Raise (InvalidFields (cname (icls self))).
Proof.
  intros Hs Hin Hk. unfold Squema.update. rewrite Hs. simpl.
  assert (Hlt : (length (List.filter (fun kv => odict_mem kv.1 (ivalues self)) data)
                 < length data)%nat).
  { clear Hs. induction data as [|[k v] data IH]; [inversion Hin|].
    simpl in Hin |- *. apply elem_of_cons in Hin as [<-|Hin].
    - rewrite Hk. pose proof (filter_length_le
        (fun kv => odict_mem kv.1 (ivalues self)) data). lia.
    - specialize (IH Hin). destruct (odict_mem k (ivalues self)); simpl; lia. }
  destruct (Nat.eqb_spec (length data)
              (length (List.filter (fun kv => odict_mem kv.1 (ivalues self)) data)));
    [lia | reflexivity].
Qed.

Lemma update_strict_rejects_unknown_witness :
  Squema.update (MkInstance Samples.StrictModel [("number", VInt 1)] [])
    [("number", VInt 2); ("extra", VInt 3)]
  = Raise (InvalidFields (cname Samples.StrictModel)).
Proof.
  apply (update_strict_rejects_unknown
           (MkInstance Samples.StrictModel [("number", VInt 1)] [])
           [("number", VInt 2); ("extra", VInt 3)] "extra").
  - reflexivity.
  - simpl. apply list_elem_of_further, list_elem_of_here.
  - reflexivity.
Defined.

(** X7.  When the policy is not strict, assigning to an attribute that is
    not a declared field, and whose name is neither reserved nor an
    attribute of the class, keeps the value as it is, outside the table:
    reading the attribute gives the value back uncoerced, while the table,
    the length and the iteration are as before, subscripting the name
    raises [KeyError], and so does assigning to it by subscript. *)
Theorem undeclared_attribute_roundtrip (rt : Runtime) (self : Instance)
    (key : string) (value : Value) :
  strict (ccfg (icls self)) = false ->
  odict_mem key (ivalues self) = false ->
  key ∉ Squema.reserved ->
  odict_get key (cattrs (icls self)) = None ->
  Squema.plain self ->
  exists self',
    Squema.__setattr__ rt self key value = Ok self'
    /\ Squema.attr_get self' key = Ok value
    /\ ivalues self' = ivalues self /\ icls self' = icls self
    /\ Squema.plain self'
    /\ Squema.__len__ self' = Squema.__len__ self
    /\ Squema.items self' = Squema.items self
    /\ Squema.contains self' key = false
    /\ Squema.__getitem__ self' key = Raise (NotAKey key (cname (icls self)))
    /\ Squema.__setitem__ rt self key value = Raise (NotAKey key (cname (icls self))).
Proof.
  intros Hs Hk Hkey _ Hplain.
  exists (MkInstance (icls self) (ivalues self) (odict_set key value (iextra self))).
  split.
  { unfold Squema.__setattr__. rewrite Hk, Hs. now apply object_setattr_plain. }
  split.
  - unfold Squema.attr_get, Squema.ordinary_lookup. simpl.
    destruct (String.eqb_spec key "__values__") as [->|_].
    + exfalso. apply Hkey. apply list_elem_of_In. simpl. tauto.
    + now rewrite odict_get_set.
  - split; [reflexivity|]. split; [reflexivity|].
    split; [now apply plain_set|]. repeat split.
    + now apply contains_false.
    + unfold Squema.__getitem__. simpl. now rewrite Hk.
    + unfold Squema.__setitem__. now rewrite Hk.
Qed.

Lemma undeclared_attribute_roundtrip_witness :
  exists self',
    Squema.__setattr__ Samples.rt
      (MkInstance Samples.Entity [("boolean", VBool true)] []) "attr" (VStr "1")
    = Ok self'
    /\ Squema.attr_get self' "attr" = Ok (VStr "1")
    /\ ivalues self' = [("boolean", VBool true)] /\ icls self' = Samples.Entity
    /\ Squema.plain self'
    /\ Squema.__len__ self' = 1%nat
    /\ Squema.items self' = [("boolean", VBool true)]
    /\ Squema.contains self' "attr" = false
    /\ Squema.__getitem__ self' "attr" = Raise (NotAKey "attr" "Entity")
    /\ Squema.__setitem__ Samples.rt
         (MkInstance Samples.Entity [("boolean", VBool true)] []) "attr" (VStr "1")
       = Raise (NotAKey "attr" "Entity").
Proof.
  apply (undeclared_attribute_roundtrip Samples.rt
           (MkInstance Samples.Entity [("boolean", VBool true)] []) "attr" (VStr "1"));
    [reflexivity | reflexivity | | reflexivity | apply Forall_nil_2].
  apply (bool_decide_unpack _). vm_compute. exact I.
Defined.




(** ** Equality *)


(** X11.  Under a strict policy iteration yields nothing, so the textual
    form of an instance is the name of its class with empty parentheses,
    and any two instances of the class are equal, whatever they hold. *)
Theorem strict_instances_all_equal (rt : Runtime) (a b : Instance) :
  strict (ccfg (icls a)) = true ->
  icls a = icls b ->
  Squema.__repr__ rt a = cname (icls a) +:+ "()"
  /\ Squema.__repr__ rt a = Squema.__repr__ rt b
  /\ Squema.__eq__ rt a b = true.
Proof.
  intros Ha Hc.
  assert (Hrepr : forall x, strict (ccfg (icls x)) = true ->
                    Squema.__repr__ rt x = cname (icls x) +:+ "()").
  { intros x Hx. unfold Squema.__repr__. now rewrite (items_strict x Hx). }
  assert (Hb : strict (ccfg (icls b)) = true) by now rewrite <- Hc.
  assert (Hab : Squema.__repr__ rt a = Squema.__repr__ rt b).
  { rewrite (Hrepr a Ha), (Hrepr b Hb). now rewrite Hc. }
  split; [now apply Hrepr|]. split; [exact Hab|].
  apply eq_unfold. split; [rewrite Hc; apply class_is_refl | now rewrite Hab].
Qed.

Lemma strict_instances_all_equal_witness :
  Squema.__repr__ Samples.rt (MkInstance Samples.StrictModel [("number", VInt 1)] [])
    = cname Samples.StrictModel +:+ "()"
  /\ Squema.__repr__ Samples.rt
       (MkInstance Samples.StrictModel [("number", VInt 1)] [])
     = Squema.__repr__ Samples.rt
         (MkInstance Samples.StrictModel [("number", VInt 2)] [])
  /\ Squema.__eq__ Samples.rt
       (MkInstance Samples.StrictModel [("number", VInt 1)] [])
       (MkInstance Samples.StrictModel [("number", VInt 2)] []) = true.
Proof.
  apply (strict_instances_all_equal Samples.rt
           (MkInstance Samples.StrictModel [("number", VInt 1)] [])
           (MkInstance Samples.StrictModel [("number", VInt 2)] []));
    reflexivity.
Defined.

(** ** reversed *)


(** ** What a class statement builds *)

Section class_tables.
Import MetaSquema Inherited.

(** The loop over the bases leaves, for each key, the entry of the first
    base of the class statement that has it. *)
Lemma inherit_lookup (bases : list Base) (key : string) :
  (forall b, BSchema b ∈ bases ->
             NoDup (odict_keys (cfields b)) /\ NoDup (odict_keys (cann b))) ->
  odict_get key (fold_left inherit (rev bases) ([], [])).1
    = first_base_with cfields key bases
  /\ odict_get key (fold_left inherit (rev bases) ([], [])).2
     = first_base_with cann key bases.
Proof.
  induction bases as [|b bases IH]; intros Hnd; [split; reflexivity|].
  simpl. rewrite fold_left_app. simpl.
  destruct IH as [IH1 IH2].
  { intros b' Hb'. apply Hnd. now apply list_elem_of_further. }
  destruct b as [|cb|t]; simpl; try (split; assumption).
  destruct (Hnd cb (list_elem_of_here _ _)) as [Hf Ha].
  rewrite !odict_get_update by assumption. rewrite IH1, IH2. split; reflexivity.
Qed.

(** The loop over the annotations gives an annotated name the value the
    class body assigns to it, else leaves what is there, else [UNSET]. *)
Lemma declare_lookup {T : Type} (namespace : list (string * Value))
    (annotations : list (string * T)) (key : string) :
  forall fields,
    odict_get key (fold_left (declare namespace) (map fst annotations) fields) =
    if odict_mem key annotations then
      match odict_get key namespace with
      | Some v => Some v
      | None => Some (default UNSET (odict_get key fields))
      end
    else odict_get key fields.
Proof.
  unfold odict_mem.
  induction annotations as [|[k0 t0] rest IH]; intros fields; simpl; [reflexivity|].
  rewrite IH. clear IH.
  assert (Hstep : odict_get key (declare namespace fields k0) =
                  if String.eqb key k0 then
                    match odict_get k0 namespace with
                    | Some v => Some v
                    | None => Some (default UNSET (odict_get k0 fields))
                    end
                  else odict_get key fields).
  { unfold declare, odict_mem.
    destruct (String.eqb_spec key k0) as [->|Hne].
    - destruct (odict_get k0 namespace); [apply odict_get_set|].
      destruct (odict_get k0 fields) eqn:Hf; simpl; [exact Hf | apply odict_get_set].
    - destruct (odict_get k0 namespace); [now apply odict_get_set_ne|].
      destruct (odict_get k0 fields); simpl; [reflexivity | now apply odict_get_set_ne]. }
  rewrite Hstep.
  destruct (String.eqb_spec key k0) as [->|Hne]; [|reflexivity].
  destruct (odict_get k0 rest), (odict_get k0 namespace); reflexivity.
Qed.

Lemma new_fields_lookup (bases : list Base) (annotations : list (string * TypeSpec))
    (namespace : list (string * Value)) (key : string) :
  (forall b, BSchema b ∈ bases ->
             NoDup (odict_keys (cfields b)) /\ NoDup (odict_keys (cann b))) ->
  odict_get key (__new__ bases annotations namespace).1.1 =
  if odict_mem key annotations then
    match odict_get key namespace with
    | Some v => Some v
    | None => Some (default UNSET (first_base_with cfields key bases))
    end
  else first_base_with cfields key bases.
Proof.
  intros Hnd. unfold __new__.
  destruct (inherit_lookup bases key Hnd) as [Hf _].
  destruct (fold_left inherit (rev bases) ([], [])) as [fields types]. simpl in *.
  now rewrite declare_lookup, Hf.
Qed.
End class_tables.

(** X13.  In the field table of a new class, a name the class body
    annotates and assigns has the assigned value as its default; a name it
    annotates without assigning keeps the default it inherits, or is
    [UNSET] when it inherits none; a name it does not annotate has the
    default of the first base of the class statement that declares it.
    Every annotated name is a field, however it is spelled. *)
Theorem new_field_defaults (bases : list MetaSquema.Base)
    (annotations : list (string * TypeSpec)) (namespace : list (string * Value))
    (key : string) :
  (forall b, MetaSquema.BSchema b ∈ bases ->
             NoDup (odict_keys (cfields b)) /\ NoDup (odict_keys (cann b))) ->
  odict_get key (MetaSquema.__new__ bases annotations namespace).1.1 =
    (if odict_mem key annotations then
       match odict_get key namespace with
       | Some v => Some v
       | None => Some (default UNSET (Inherited.first_base_with cfields key bases))
       end
     else Inherited.first_base_with cfields key bases)
  /\ (odict_mem key annotations = true ->
      odict_mem key (MetaSquema.__new__ bases annotations namespace).1.1 = true).
Proof.
  intros Hnd. pose proof (new_fields_lookup bases annotations namespace key Hnd) as H.
  split; [exact H|]. intros Hann. unfold odict_mem at 1. rewrite H, Hann.
  now destruct (odict_get key namespace).
Qed.

Lemma new_field_defaults_witness :
  odict_get "number"
    (MetaSquema.__new__ [MetaSquema.BSchema Samples.Outer]
       [("label", TClass str_t); ("number", TClass bool_t)]
       [("number", VBool false)]).1.1 = Some (VBool false)
  /\ (odict_mem "number" [("label", TClass str_t); ("number", TClass bool_t)] = true ->
      odict_mem "number"
        (MetaSquema.__new__ [MetaSquema.BSchema Samples.Outer]
           [("label", TClass str_t); ("number", TClass bool_t)]
           [("number", VBool false)]).1.1 = true).
Proof.
  apply (new_field_defaults [MetaSquema.BSchema Samples.Outer]
           [("label", TClass str_t); ("number", TClass bool_t)]
           [("number", VBool false)] "number").
  intros b Hb. apply list_elem_of_singleton in Hb. injection Hb as ->.
  split; apply (bool_decide_unpack _); vm_compute; exact I.
Defined.

(** X14.  The annotations of a new class give a name the type the class
    body declares for it, and otherwise the type of the first base of the
    class statement that declares the name. *)
Theorem new_annotations_merge (bases : list MetaSquema.Base)
    (annotations : list (string * TypeSpec)) (namespace : list (string * Value))
    (key : string) :
  NoDup (map fst annotations) ->
  (forall b, MetaSquema.BSchema b ∈ bases ->
             NoDup (odict_keys (cfields b)) /\ NoDup (odict_keys (cann b))) ->
  odict_get key (MetaSquema.__new__ bases annotations namespace).1.2 =
  match odict_get key annotations with
  | Some t => Some t
  | None => Inherited.first_base_with cann key bases
  end.
Proof.
  intros Hann Hnd. unfold MetaSquema.__new__.
  destruct (inherit_lookup bases key Hnd) as [_ Ht].
  destruct (fold_left MetaSquema.inherit (rev bases) ([], [])) as [fields types].
  simpl in *. now rewrite odict_get_update, Ht.
Qed.

Lemma new_annotations_merge_witness :
  odict_get "number"
    (MetaSquema.__new__ [MetaSquema.BSchema Samples.Outer]
       [("label", TClass str_t); ("number", TClass bool_t)]
       [("number", VBool false)]).1.2
  = match odict_get "number" [("label", TClass str_t); ("number", TClass bool_t)] with
    | Some t => Some t
    | None => Inherited.first_base_with cann "number" [MetaSquema.BSchema Samples.Outer]
    end.
Proof.
  apply (new_annotations_merge [MetaSquema.BSchema Samples.Outer]
           [("label", TClass str_t); ("number", TClass bool_t)]
           [("number", VBool false)] "number").
  - apply (bool_decide_unpack _). vm_compute. exact I.
  - intros b Hb. apply list_elem_of_singleton in Hb. injection Hb as ->.
    split; apply (bool_decide_unpack _); vm_compute; exact I.
Defined.

(** X15.  The namespace of a new class holds the field table under
    [__fields__], an empty dictionary under [__values__], the merged
    annotations under [__annotations__], and besides them the entries of
    the class body whose names are not fields, and no others: a name
    assigned without an annotation stays an attribute of the class when it
    is no inherited field, and when it is one the assignment is lost, the
    field keeping the default it inherits. *)
Theorem new_namespace_excludes_fields (bases : list MetaSquema.Base)
    (annotations : list (string * TypeSpec)) (namespace : list (string * Value))
    (key : string) :
  (forall b, MetaSquema.BSchema b ∈ bases ->
             NoDup (odict_keys (cfields b)) /\ NoDup (odict_keys (cann b))) ->
  odict_get key (MetaSquema.__new__ bases annotations namespace).2 =
    (if String.eqb key "__annotations__" then
       Some (VDict (map (fun kv => (kv.1, spec_value kv.2))
                      (MetaSquema.__new__ bases annotations namespace).1.2))
     else if String.eqb key "__values__" then Some (VDict [])
     else if String.eqb key "__fields__" then
       Some (VDict (MetaSquema.__new__ bases annotations namespace).1.1)
     else if odict_mem key (MetaSquema.__new__ bases annotations namespace).1.1
     then None else odict_get key namespace)
  /\ (key ∉ ["__fields__"; "__values__"; "__annotations__"] ->
      odict_mem key annotations = false ->
      match Inherited.first_base_with cfields key bases with
      | None =>
          odict_get key (MetaSquema.__new__ bases annotations namespace).2
          = odict_get key namespace
      | Some inherited =>
          odict_get key (MetaSquema.__new__ bases annotations namespace).2 = None
          /\ odict_get key (MetaSquema.__new__ bases annotations namespace).1.1
             = Some inherited
      end).
Proof.
  intros Hnd.
  pose proof (new_fields_lookup bases annotations namespace key Hnd) as Hf.
  assert (Hns : odict_get key (MetaSquema.__new__ bases annotations namespace).2 =
    (if String.eqb key "__annotations__" then
       Some (VDict (map (fun kv => (kv.1, spec_value kv.2))
                      (MetaSquema.__new__ bases annotations namespace).1.2))
     else if String.eqb key "__values__" then Some (VDict [])
     else if String.eqb key "__fields__" then
       Some (VDict (MetaSquema.__new__ bases annotations namespace).1.1)
     else if odict_mem key (MetaSquema.__new__ bases annotations namespace).1.1
     then None else odict_get key namespace)).
  { unfold MetaSquema.__new__.
    destruct (fold_left MetaSquema.inherit (rev bases) ([], [])) as [fields types].
    cbn [fst snd].
    destruct (String.eqb_spec key "__annotations__") as [->|Ha];
      [apply odict_get_set|].
    rewrite odict_get_set_ne by exact Ha.
    destruct (String.eqb_spec key "__values__") as [->|Hv];
      [apply odict_get_set|].
    rewrite odict_get_set_ne by exact Hv.
    destruct (String.eqb_spec key "__fields__") as [->|Hfs];
      [apply odict_get_set|].
    rewrite odict_get_set_ne by exact Hfs.
    rewrite (odict_get_filter (fun k => negb (odict_mem k _))).
    destruct (odict_mem key (fold_left _ _ _)); reflexivity. }
  split; [exact Hns|]. intros Hkey Hann. rewrite Hann in Hf.
  rewrite Hns.
  destruct (String.eqb_spec key "__annotations__") as [->|_];
    [exfalso; apply Hkey; apply list_elem_of_In; simpl; tauto|].
  destruct (String.eqb_spec key "__values__") as [->|_];
    [exfalso; apply Hkey; apply list_elem_of_In; simpl; tauto|].
  destruct (String.eqb_spec key "__fields__") as [->|_];
    [exfalso; apply Hkey; apply list_elem_of_In; simpl; tauto|].
  unfold odict_mem. rewrite Hf.
  now destruct (Inherited.first_base_with cfields key bases).
Qed.

Lemma new_namespace_excludes_fields_witness :
  odict_get "number"
    (MetaSquema.__new__ [MetaSquema.BSchema Samples.Outer] []
       [("number", VInt 7); ("other", VBool true)]).2 = None
  /\ ("number" ∉ ["__fields__"; "__values__"; "__annotations__"] ->
      odict_mem "number" (@nil (string * TypeSpec)) = false ->
      odict_get "number"
        (MetaSquema.__new__ [MetaSquema.BSchema Samples.Outer] []
           [("number", VInt 7); ("other", VBool true)]).2 = None
      /\ odict_get "number"
           (MetaSquema.__new__ [MetaSquema.BSchema Samples.Outer] []
              [("number", VInt 7); ("other", VBool true)]).1.1 = Some UNSET).
Proof.
  apply (new_namespace_excludes_fields [MetaSquema.BSchema Samples.Outer] []
           [("number", VInt 7); ("other", VBool true)] "number").
  intros b Hb. apply list_elem_of_singleton in Hb. injection Hb as ->.
  split; apply (bool_decide_unpack _); vm_compute; exact I.
Defined.

(** ** Instances that need no coercion *)

Lemma issubclass_refl (t : PyType) : issubclass t t = true.
Proof.
  unfold issubclass, type_is. destruct t as [i n p bs]. simpl.
  now rewrite String.eqb_refl.
Qed.

Lemma issubclass_base (t base : PyType) :
  base ∈ tbases t -> issubclass t base = true.
Proof.
  unfold issubclass. destruct t as [i n p bs]. simpl. intros Hin.
  apply orb_true_iff. right.
  induction bs as [|b bs IH]; [inversion Hin|].
  rewrite existsb_app. apply orb_true_iff.
  apply elem_of_cons in Hin as [<-|Hin]; [left | right; now apply IH].
  apply (issubclass_refl base).
Qed.

(** X16.  A value that is an instance of the schema class a field is
    declared with, or of a class whose class statement lists that class as a
    base, is stored as it is: no decoder, no constructor and no nested
    construction is run on it. *)
Theorem schema_instance_kept (rt : Runtime) (cfg : Config) (base : Class)
    (key id name : string) (bases : list MetaSquema.Base)
    (annotations : list (string * TypeSpec)) (namespace : list (string * Value))
    (config : Config) (inherited : list (string * Value))
    (vals extra : list (string * Value)) :
  (forall vals' extra',
     Squema.coerce rt cfg (TSchema base) key (VInst base vals' extra')
     = Ok (VInst base vals' extra'))
  /\ (MetaSquema.BSchema base ∈ bases ->
      Squema.coerce rt cfg (TSchema base) key
        (VInst (MetaSquema.define id name bases annotations namespace config inherited)
           vals extra)
      = Ok (VInst (MetaSquema.define id name bases annotations namespace config inherited)
              vals extra)).
Proof.
  split.
  - intros vals' extra'. destruct base as [t f a g x].
    simpl. now rewrite (issubclass_refl t).
  - intros Hin.
    assert (Hsub : isinstance
              (VInst (MetaSquema.define id name bases annotations namespace config inherited)
                 vals extra) (TSchema base) = true).
    { simpl. unfold MetaSquema.define.
      destruct (MetaSquema.__new__ bases annotations namespace) as [[? ?] ?]. simpl.
      apply issubclass_base. simpl.
      apply list_elem_of_fmap. exists (MetaSquema.BSchema base). split; [reflexivity|].
      exact Hin. }
    destruct base as [t f a g x]. simpl in *. now rewrite Hsub.
Qed.

(** X17.  Coercion to a nested schema class for which no decoder is
    registered is idempotent: what it returns is returned unchanged when
    it is coerced again. *)
Theorem coerce_schema_idempotent (rt : Runtime) (cfg : Config) (c : Class)
    (key : string) (value coerced : Value) :
  decoders cfg !! cid c = None ->
  Squema.coerce rt cfg (TSchema c) key value = Ok coerced ->
  Squema.coerce rt cfg (TSchema c) key coerced = Ok coerced.
Proof.
  intros Hd Hco.
  assert (Hinst : isinstance coerced (TSchema c) = true).
  { destruct (isinstance value (TSchema c)) eqn:Hi.
    - destruct c as [t f a g x]. simpl in Hco, Hi. rewrite Hi in Hco. simpl in Hco.
      now injection Hco as <-.
    - rewrite coerce_schema in Hco by assumption.
      unfold try_except in Hco. unfold_bind.
      destruct (Squema.unpack_kwargs value) as [kwargs|e].
      + destruct (Squema.call rt c [] kwargs) as [instance|e] eqn:Hcall.
        * injection Hco as <-. unfold Squema.call, Squema.call_with in Hcall.
          destruct (odict_mem "self" kwargs); [discriminate|].
          apply init_with_keys in Hcall as (Hc & _ & _).
          unfold to_value. simpl. rewrite Hc. apply issubclass_refl.
        * destruct (is_TypeError e); [|discriminate].
          now destruct (Squema.name_attr value).
      + destruct (is_TypeError e); [|discriminate].
        now destruct (Squema.name_attr value). }
  destruct c as [t f a g x]. simpl in *. now rewrite Hinst.
Qed.

Lemma coerce_schema_idempotent_witness :
  Squema.coerce Samples.rt default_config (TSchema Samples.Entity) "entity"
    (VInst Samples.Entity [("boolean", VBool true)] [])
  = Ok (VInst Samples.Entity [("boolean", VBool true)] []).
Proof.
  apply (coerce_schema_idempotent Samples.rt default_config Samples.Entity "entity"
           (VDict [("boolean", VBool true)])); reflexivity.
Defined.

(** ** The options of a Config *)

Section options_facts.
Import ConfigClass ConfigMethods.

Lemma differing_lookup (obj cls : Registry) (k : string) (f : FuncId) :
  differing obj cls !! k = Some f <-> obj !! k = Some f /\ cls !! k <> Some f.
Proof. unfold differing. now rewrite map_lookup_filter_Some. Qed.

Lemma differing_union (over base : Registry) :
  differing (over ∪ base) base = differing over base.
Proof.
  apply map_eq. intros k. apply option_eq. intros f.
  rewrite !differing_lookup, lookup_union_Some_raw. split.
  - intros [[Ho | [_ Hb]] Hne]; [now split | contradiction].
  - intros [Ho Hne]. split; [now left | exact Hne].
Qed.

Lemma or_empty_is_Some (h : Heap) (arg : option loc) (over : Registry) :
  or_empty h arg = Some over -> forall l, arg = Some l -> is_Some (h !! l).
Proof. intros Hor l ->. simpl in Hor. eauto. Qed.

Lemma init_result (cls : ClassAttrs) (h : Heap) (strict mutable : bool)
    (encoders decoders : option loc) (enc0 dec0 over_e over_d : Registry) :
  h !! cls_encoders cls = Some enc0 ->
  h !! cls_decoders cls = Some dec0 ->
  or_empty h encoders = Some over_e ->
  or_empty h decoders = Some over_d ->
  exists e d,
    __init__ cls h strict mutable encoders decoders
    = Some (<[d := over_d ∪ dec0]> (<[e := over_e ∪ enc0]> h),
            MkSelf (Some strict) (Some mutable) (Some e) (Some d))
    /\ h !! e = None /\ h !! d = None /\ e <> d.
Proof.
  intros Henc Hdec Hover_e Hover_d.
  destruct (dict_copy_spec h _ enc0 Henc) as (e & Hcopy_e & He).
  destruct (or_empty_insert h e enc0 encoders He (or_empty_is_Some _ _ _ Hover_e))
    as [Hor_e _].
  set (h1 := <[e := over_e ∪ enc0]> h).
  assert (Hdec1 : h1 !! cls_decoders cls = Some dec0).
  { unfold h1. rewrite lookup_insert_ne; [exact Hdec | intros ->; congruence]. }
  destruct (dict_copy_spec h1 _ dec0 Hdec1) as (d & Hcopy_d & Hd).
  assert (Hed : e <> d).
  { intros ->. unfold h1 in Hd. now rewrite lookup_insert_eq in Hd. }
  assert (Hd0 : h !! d = None).
  { unfold h1 in Hd. now rewrite lookup_insert_ne in Hd. }
  assert (Hover_d1 : or_empty h1 decoders = Some over_d).
  { destruct decoders as [l|]; simpl in *; [|exact Hover_d].
    unfold h1. rewrite lookup_insert_ne; [exact Hover_d | intros ->; congruence]. }
  destruct (or_empty_insert h1 d dec0 decoders Hd (or_empty_is_Some _ _ _ Hover_d1))
    as [Hor_d _].
  exists e, d. split; [|auto].
  unfold __init__, get_encoders, get_decoders.
  simpl. rewrite Hcopy_e. simpl.
  rewrite Hor_e, Hover_e. simpl. rewrite dict_update_insert. fold h1.
  rewrite Hcopy_d. simpl. rewrite Hor_d, Hover_d1. simpl.
  now rewrite dict_update_insert.
Qed.
End options_facts.

(** X18.  [Config(...)] followed by [options()]: the object reports
    [strict] and [mutable] when they are set, then under [encoders] and
    under [decoders] exactly the overrides that differ from what the class
    has for the same key; an override that repeats the class's entry is not
    reported, so a call whose overrides all repeat the class reports the
    flags alone. *)
Theorem options_after_init (cls : ConfigClass.ClassAttrs)
    (h : ConfigClass.Heap) (strict mutable : bool)
    (encoders decoders : option ConfigClass.loc)
    (enc0 dec0 over_e over_d : Registry) :
  h !! ConfigClass.cls_encoders cls = Some enc0 ->
  h !! ConfigClass.cls_decoders cls = Some dec0 ->
  ConfigClass.or_empty h encoders = Some over_e ->
  ConfigClass.or_empty h decoders = Some over_d ->
  exists h' self,
    ConfigClass.__init__ cls h strict mutable encoders decoders = Some (h', self)
    /\ ConfigMethods.options cls h' self
       = Some ((if strict then [("strict", ConfigMethods.OFlag true)] else [])
               ++ (if mutable then [("mutable", ConfigMethods.OFlag true)] else [])
               ++ ConfigMethods.entries_option "encoders"
                    (ConfigMethods.differing over_e enc0)
               ++ ConfigMethods.entries_option "decoders"
                    (ConfigMethods.differing over_d dec0))
    /\ (forall k f, ConfigMethods.differing over_e enc0 !! k = Some f
                    <-> over_e !! k = Some f /\ enc0 !! k <> Some f)
    /\ (forall k f, ConfigMethods.differing over_d dec0 !! k = Some f
                    <-> over_d !! k = Some f /\ dec0 !! k <> Some f)
    /\ (over_e ⊆ enc0 -> over_d ⊆ dec0 ->
        ConfigMethods.options cls h' self
        = Some ((if strict then [("strict", ConfigMethods.OFlag true)] else [])
                ++ (if mutable then [("mutable", ConfigMethods.OFlag true)] else []))).
Proof.
  intros Henc Hdec Hover_e Hover_d.
  destruct (init_result cls h strict mutable encoders decoders enc0 dec0 over_e over_d
              Henc Hdec Hover_e Hover_d) as (e & d & Hinit & He & Hd & Hed).
  eexists _, _. split; [exact Hinit|].
  assert (Hopt : ConfigMethods.options cls
            (<[d := over_d ∪ dec0]> (<[e := over_e ∪ enc0]> h))
            (ConfigClass.MkSelf (Some strict) (Some mutable) (Some e) (Some d))
       = Some ((if strict then [("strict", ConfigMethods.OFlag true)] else [])
               ++ (if mutable then [("mutable", ConfigMethods.OFlag true)] else [])
               ++ ConfigMethods.entries_option "encoders"
                    (ConfigMethods.differing over_e enc0)
               ++ ConfigMethods.entries_option "decoders"
                    (ConfigMethods.differing over_d dec0))).
  { unfold ConfigMethods.options, ConfigClass.get_encoders, ConfigClass.get_decoders.
    simpl.
    rewrite (lookup_insert_ne _ d e) by congruence.
    rewrite !lookup_insert_eq. simpl.
    rewrite !lookup_insert_ne by (intros ->; congruence).
    rewrite Henc, Hdec. simpl.
    rewrite !differing_union.
    unfold ConfigMethods.flag_option. simpl.
    now destruct strict, mutable. }
  split; [exact Hopt|].
  split; [intros k f; apply differing_lookup|].
  split; [intros k f; apply differing_lookup|].
  intros Hsub_e Hsub_d. rewrite Hopt.
  assert (Hempty : forall over base : Registry, over ⊆ base ->
            ConfigMethods.differing over base = ∅).
  { intros over base Hsub. apply map_eq. intros k. apply option_eq. intros f.
    rewrite differing_lookup, lookup_empty. split; [|discriminate].
    intros [Ho Hne]. exfalso. apply Hne.
    eapply lookup_weaken; eassumption. }
  rewrite !Hempty by assumption.
  unfold ConfigMethods.entries_option.
  rewrite bool_decide_eq_false_2 by (intros H; now apply H).
  now rewrite !app_nil_r.
Qed.

Lemma options_after_init_witness :
  exists h' self,
    ConfigClass.__init__ Samples.cls Samples.heap false true (Some 2%nat) None
    = Some (h', self)
    /\ ConfigMethods.options Samples.cls h' self
       = Some ([] ++ [("mutable", ConfigMethods.OFlag true)]
               ++ ConfigMethods.entries_option "encoders"
                    (ConfigMethods.differing {["set" := "sorted"]} default_encoders)
               ++ ConfigMethods.entries_option "decoders"
                    (ConfigMethods.differing ∅ default_decoders))
    /\ (forall k f,
          ConfigMethods.differing {["set" := "sorted"]} default_encoders !! k = Some f
          <-> ({["set" := "sorted"]} : Registry) !! k = Some f
              /\ default_encoders !! k <> Some f)
    /\ (forall k f,
          ConfigMethods.differing ∅ default_decoders !! k = Some f
          <-> (∅ : Registry) !! k = Some f /\ default_decoders !! k <> Some f)
    /\ (({["set" := "sorted"]} : Registry) ⊆ default_encoders ->
        (∅ : Registry) ⊆ default_decoders ->
        ConfigMethods.options Samples.cls h' self
        = Some ([] ++ [("mutable", ConfigMethods.OFlag true)])).
Proof.
  apply (options_after_init Samples.cls Samples.heap false true (Some 2%nat) None
           default_encoders default_decoders {["set" := "sorted"]} ∅);
    reflexivity.
Defined.
(** ** The parsers of dates and times *)

Section parser_facts.
Import Parser.
Import Stdlib.Strings.Ascii.

Lemma digit_char_cases (d : Z) :
  0 <= d <= 9 ->
  d = 0 \/ d = 1 \/ d = 2 \/ d = 3 \/ d = 4 \/ d = 5 \/ d = 6 \/ d = 7 \/ d = 8 \/ d = 9.
Proof. lia. Qed.

Lemma is_digit_char (d : Z) : 0 <= d <= 9 -> is_digit (digit_char d) = true.
Proof.
  intros Hd.
  destruct (digit_char_cases d Hd) as [-> | [-> | [-> | [-> | [-> | [-> | [-> | [-> | [-> | ->]]]]]]]]];
    reflexivity.
Qed.

Lemma digit_value_char (d : Z) : 0 <= d <= 9 -> digit_value (digit_char d) = d.
Proof.
  intros Hd.
  destruct (digit_char_cases d Hd) as [-> | [-> | [-> | [-> | [-> | [-> | [-> | [-> | [-> | ->]]]]]]]]];
    reflexivity.
Qed.

Lemma two_digits (n : Z) :
  0 <= n < 100 -> 0 <= n / 10 <= 9 /\ 0 <= n mod 10 <= 9 /\ n / 10 * 10 + n mod 10 = n.
Proof.
  intros Hn. pose proof (Z.div_mod n 10 ltac:(lia)).
  pose proof (Z.mod_pos_bound n 10 ltac:(lia)). lia.
Qed.

Lemma four_digits (n : Z) :
  0 <= n < 10000 ->
  0 <= n / 1000 <= 9 /\ 0 <= n / 100 mod 10 <= 9 /\ 0 <= n mod 100 < 100
  /\ (n / 1000 * 10 + n / 100 mod 10) * 100 + n mod 100 = n.
Proof.
  intros Hn. pose proof (Z.div_mod n 100 ltac:(lia)).
  pose proof (Z.mod_pos_bound n 100 ltac:(lia)).
  pose proof (Z.div_mod (n / 100) 10 ltac:(lia)).
  pose proof (Z.mod_pos_bound (n / 100) 10 ltac:(lia)).
  assert (n / 1000 = n / 100 / 10) by (rewrite Z.div_div by lia; reflexivity).
  lia.
Qed.


Lemma int_two (a b : Ascii.ascii) :
  int (String a (String b EmptyString)) = digit_value a * 10 + digit_value b.
Proof. reflexivity. Qed.

Lemma int_four (a b c d : Ascii.ascii) :
  int (String a (String b (String c (String d EmptyString))))
  = ((digit_value a * 10 + digit_value b) * 10 + digit_value c) * 10 + digit_value d.
Proof. reflexivity. Qed.

Lemma match_two (a b : Ascii.ascii) (rest : string) :
  is_digit a = true -> is_digit b = true ->
  match_tokens [Digit; Digit] (String a (String b EmptyString) +:+ rest)
  = Some (String a (String b EmptyString), rest).
Proof. intros Ha Hb. simpl. now rewrite Ha, Hb. Qed.

Lemma match_four (a b c d : Ascii.ascii) (rest : string) :
  is_digit a = true -> is_digit b = true -> is_digit c = true -> is_digit d = true ->
  match_tokens [Digit; Digit; Digit; Digit]
    (String a (String b (String c (String d EmptyString))) +:+ rest)
  = Some (String a (String b (String c (String d EmptyString))), rest).
Proof. intros Ha Hb Hc Hd. simpl. now rewrite Ha, Hb, Hc, Hd. Qed.

Lemma int_pad2 (n : Z) : 0 <= n < 100 -> int (pad2 n) = n.
Proof.
  intros Hn. destruct (two_digits n Hn) as (H1 & H2 & H3).
  unfold pad2. rewrite int_two, !digit_value_char by assumption. exact H3.
Qed.

Lemma int_pad4 (n : Z) : 0 <= n < 10000 -> int (pad4 n) = n.
Proof.
  intros Hn. destruct (four_digits n Hn) as (H1 & H2 & H3 & H4).
  destruct (two_digits _ H3) as (H5 & H6 & H7).
  unfold pad4, pad2. rewrite int_four, !digit_value_char by assumption. lia.
Qed.

Lemma match_pad2 (n : Z) (rest : string) :
  0 <= n < 100 ->
  match_tokens [Digit; Digit] (pad2 n +:+ rest) = Some (pad2 n, rest).
Proof.
  intros Hn. destruct (two_digits n Hn) as (H1 & H2 & _).
  unfold pad2. apply match_two; now apply is_digit_char.
Qed.

Lemma match_pad4 (n : Z) (rest : string) :
  0 <= n < 10000 ->
  match_tokens [Digit; Digit; Digit; Digit] (pad4 n +:+ rest) = Some (pad4 n, rest).
Proof.
  intros Hn. destruct (four_digits n Hn) as (H1 & H2 & H3 & _).
  destruct (two_digits _ H3) as (H5 & H6 & _).
  unfold pad4, pad2. apply match_four; now apply is_digit_char.
Qed.

Lemma append_assoc (a b c : string) : (a +:+ b) +:+ c = a +:+ (b +:+ c).
Proof.
  induction a as [|x a IH]; [reflexivity|].
  change (String x ((a +:+ b) +:+ c) = String x (a +:+ (b +:+ c))). now f_equal.
Qed.

Lemma match_items_group (ts : list Token) (items : list Item) (text : string) :
  match_items (Group ts :: items) text
  = '(m, rest) ← match_tokens ts text;
    groups ← match_items items rest; Some (m :: groups).
Proof. reflexivity. Qed.

Lemma match_items_plain (t : Token) (c : Ascii.ascii) (items : list Item)
    (text : string) :
  token_matches t c = true ->
  match_items (Plain t :: items) (String c EmptyString +:+ text)
  = match_items items text.
Proof. intros Hc. simpl. now rewrite Hc. Qed.

Lemma match_date_then (y m d : Z) (items : list Item) (rest : string) :
  0 <= y < 10000 -> 0 <= m < 100 -> 0 <= d < 100 ->
  match_items (date_pattern ++ items) (iso_date y m d +:+ rest)
  = groups ← match_items items rest; Some ([pad4 y; pad2 m; pad2 d] ++ groups).
Proof.
  intros Hy Hm Hd. unfold iso_date, date_pattern. rewrite !append_assoc.
  cbn [app]. rewrite match_items_group, match_pad4 by assumption.
  cbn [mbind option_bind].
  rewrite match_items_plain by reflexivity.
  rewrite match_items_group, match_pad2 by assumption.
  cbn [mbind option_bind].
  rewrite match_items_plain by reflexivity.
  rewrite match_items_group, match_pad2 by assumption.
  cbn [mbind option_bind].
  now destruct (match_items items rest).
Qed.

Lemma match_time_then (h m s : Z) (items : list Item) (rest : string) :
  0 <= h < 100 -> 0 <= m < 100 -> 0 <= s < 100 ->
  match_items (time_pattern ++ items) (iso_time h m s +:+ rest)
  = groups ← match_items items rest; Some ([pad2 h; pad2 m; pad2 s] ++ groups).
Proof.
  intros Hh Hm Hs. unfold iso_time, time_pattern. rewrite !append_assoc.
  cbn [app]. rewrite match_items_group, match_pad2 by assumption.
  cbn [mbind option_bind].
  rewrite match_items_plain by reflexivity.
  rewrite match_items_group, match_pad2 by assumption.
  cbn [mbind option_bind].
  rewrite match_items_plain by reflexivity.
  rewrite match_items_group, match_pad2 by assumption.
  cbn [mbind option_bind].
  now destruct (match_items items rest).
Qed.


Lemma match_tokens_suffix (ts : list Token) (text m rest extra : string) :
  match_tokens ts text = Some (m, rest) ->
  match_tokens ts (text +:+ extra) = Some (m, rest +:+ extra).
Proof.
  revert text m rest. induction ts as [|t ts IH]; intros text m rest H.
  - injection H as <- <-. reflexivity.
  - destruct text as [|c text]; [discriminate|]. simpl in H.
    change (String c text +:+ extra) with (String c (text +:+ extra)).
    cbn [match_tokens].
    destruct (token_matches t c); [|discriminate].
    destruct (match_tokens ts text) as [[m' rest']|] eqn:Hts; [|discriminate].
    simpl in H. injection H as <- <-.
    now rewrite (IH _ _ _ Hts).
Qed.

Lemma match_items_suffix (items : list Item) (text extra : string)
    (groups : list string) :
  match_items items text = Some groups ->
  match_items items (text +:+ extra) = Some groups.
Proof.
  revert text groups. induction items as [|[ts|t] items IH]; intros text groups H.
  - exact H.
  - rewrite match_items_group in *.
    destruct (match_tokens ts text) as [[m rest]|] eqn:Hts; [|discriminate].
    rewrite (match_tokens_suffix _ _ _ _ extra Hts). cbn [mbind option_bind] in *.
    destruct (match_items items rest) as [gs|] eqn:Hitems; [|discriminate].
    now rewrite (IH _ _ Hitems).
  - cbn [match_items] in *.
    destruct (match_tokens [t] text) as [[m rest]|] eqn:Hts; [|discriminate].
    rewrite (match_tokens_suffix _ _ _ _ extra Hts). cbn [mbind option_bind] in *.
    now apply IH.
Qed.


Lemma match_datetime (y m d h mi s : Z) (sep rest : string) :
  0 <= y < 10000 -> 0 <= m < 100 -> 0 <= d < 100 ->
  0 <= h < 100 -> 0 <= mi < 100 -> 0 <= s < 100 ->
  sep = "T" \/ sep = " " ->
  match_items datetime_pattern
    (iso_date y m d +:+ sep +:+ iso_time h mi s +:+ rest)
  = Some [pad4 y; pad2 m; pad2 d; pad2 h; pad2 mi; pad2 s].
Proof.
  intros Hy Hm Hd Hh Hmi Hs Hsep. unfold datetime_pattern.
  rewrite match_date_then by assumption. cbn [app].
  assert (Hplain : match_items (Plain (OneOf ["T"; " "]%char) :: time_pattern)
                     (sep +:+ iso_time h mi s +:+ rest)
                   = match_items (time_pattern ++ []) (iso_time h mi s +:+ rest)).
  { rewrite app_nil_r. destruct Hsep as [-> | ->]; now apply match_items_plain. }
  rewrite Hplain, match_time_then by assumption. reflexivity.
Qed.

Lemma matcher_groups (new : PyType -> list Z -> result Value) (entity : PyType)
    (regex : list Item) (text : string) (groups : list string) :
  match_items regex text = Some groups ->
  matcher new entity regex (VStr text)
  = try_except (new entity (map int groups)) is_AttributeError
      (fun _ => Raise (not_iso text)).
Proof. intros H. unfold matcher. now rewrite H. Qed.


Lemma parser_matcher (new : PyType -> list Z -> result Value) (entity : PyType)
    (parse : Value -> result Value) :
  parser new entity = Ok parse ->
  exists regex,
    patterns entity = Some regex /\ parse = matcher new entity regex.
Proof.
  unfold parser. destruct (patterns entity) as [regex|]; [|discriminate].
  intros [= <-]. now exists regex.
Qed.
End parser_facts.

(** X19.  The parsers read the ISO text of a date, of a time and of a date
    with a time: for a year of four digits and fields of two, the class is
    called with the numbers the text was written from, whatever follows the
    text; the date and the time may be joined by [T] or by a space.  What
    the class returns or raises is what the parser returns or raises, but
    for an [AttributeError], which becomes the [ValueError] of line 26. *)
Theorem parser_reads_iso_text (new : PyType -> list Z -> result Value)
    (y m d h mi s : Z) (sep rest : string) :
  0 <= y < 10000 -> 0 <= m < 100 -> 0 <= d < 100 ->
  0 <= h < 100 -> 0 <= mi < 100 -> 0 <= s < 100 ->
  sep = "T" \/ sep = " " ->
  exists parse_date parse_time parse_datetime,
    Parser.parser new Parser.date = Ok parse_date
    /\ Parser.parser new Parser.time = Ok parse_time
    /\ Parser.parser new Parser.datetime = Ok parse_datetime
    /\ parse_date (VStr (Parser.iso_date y m d +:+ rest))
       = try_except (new Parser.date [y; m; d]) Parser.is_AttributeError
           (fun _ => Raise (Parser.not_iso (Parser.iso_date y m d +:+ rest)))
    /\ parse_time (VStr (Parser.iso_time h mi s +:+ rest))
       = try_except (new Parser.time [h; mi; s]) Parser.is_AttributeError
           (fun _ => Raise (Parser.not_iso (Parser.iso_time h mi s +:+ rest)))
    /\ parse_datetime
         (VStr (Parser.iso_date y m d +:+ sep +:+ Parser.iso_time h mi s +:+ rest))
       = try_except (new Parser.datetime [y; m; d; h; mi; s])
           Parser.is_AttributeError
           (fun _ => Raise (Parser.not_iso
              (Parser.iso_date y m d +:+ sep +:+ Parser.iso_time h mi s +:+ rest))).
Proof.
  intros Hy Hm Hd Hh Hmi Hs Hsep.
  eexists _, _, _. do 3 (split; [reflexivity|]).
  split; [|split].
  - rewrite (matcher_groups _ _ _ _ [Parser.pad4 y; Parser.pad2 m; Parser.pad2 d]).
    + cbn [map]. now rewrite int_pad4, !int_pad2 by assumption.
    + rewrite <- (app_nil_r Parser.date_pattern).
      now rewrite match_date_then by assumption.
  - rewrite (matcher_groups _ _ _ _ [Parser.pad2 h; Parser.pad2 mi; Parser.pad2 s]).
    + cbn [map]. now rewrite !int_pad2 by assumption.
    + rewrite <- (app_nil_r Parser.time_pattern).
      now rewrite match_time_then by assumption.
  - rewrite (matcher_groups _ _ _ _
               [Parser.pad4 y; Parser.pad2 m; Parser.pad2 d;
                Parser.pad2 h; Parser.pad2 mi; Parser.pad2 s]).
    + cbn [map]. now rewrite int_pad4, !int_pad2 by assumption.
    + now apply match_datetime.
Qed.

Lemma parser_reads_iso_text_witness :
  exists parse_date parse_time parse_datetime,
    Parser.parser Parser.record Parser.date = Ok parse_date
    /\ Parser.parser Parser.record Parser.time = Ok parse_time
    /\ Parser.parser Parser.record Parser.datetime = Ok parse_datetime
    /\ parse_date (VStr (Parser.iso_date 1999 12 31 +:+ "T23:59:59"))
       = try_except (Parser.record Parser.date [1999; 12; 31]) Parser.is_AttributeError
           (fun _ => Raise (Parser.not_iso (Parser.iso_date 1999 12 31 +:+ "T23:59:59")))
    /\ parse_time (VStr (Parser.iso_time 23 59 59 +:+ "T23:59:59"))
       = try_except (Parser.record Parser.time [23; 59; 59]) Parser.is_AttributeError
           (fun _ => Raise (Parser.not_iso (Parser.iso_time 23 59 59 +:+ "T23:59:59")))
    /\ parse_datetime
         (VStr (Parser.iso_date 1999 12 31 +:+ " " +:+ Parser.iso_time 23 59 59
                +:+ "T23:59:59"))
       = try_except (Parser.record Parser.datetime [1999; 12; 31; 23; 59; 59])
           Parser.is_AttributeError
           (fun _ => Raise (Parser.not_iso
              (Parser.iso_date 1999 12 31 +:+ " " +:+ Parser.iso_time 23 59 59
               +:+ "T23:59:59"))).
Proof.
  apply (parser_reads_iso_text Parser.record 1999 12 31 23 59 59 " " "T23:59:59");
    first [lia | now right].
Defined.



(** X21.  A parser matches at the start of the text and does not look at
    what follows the match: when it accepts a text, it accepts the text
    followed by anything, with the same result. *)
Theorem parser_ignores_trailing_text (new : PyType -> list Z -> result Value)
    (entity : PyType) (parse : Value -> result Value) (text extra : string)
    (parsed : Value) :
  Parser.parser new entity = Ok parse ->
  parse (VStr text) = Ok parsed ->
  parse (VStr (text +:+ extra)) = Ok parsed.
Proof.
  intros Hparse Hok.
  destruct (parser_matcher _ _ _ Hparse) as (regex & _ & ->).
  unfold Parser.matcher in *.
  destruct (Parser.match_items regex text) as [groups|] eqn:Hm; [|discriminate].
  rewrite (match_items_suffix _ _ extra _ Hm).
  unfold try_except in *.
  destruct (new entity (map Parser.int groups)) as [v|e]; [exact Hok|].
  now destruct (Parser.is_AttributeError e).
Qed.

Lemma parser_ignores_trailing_text_witness :
  Parser.matcher Parser.record Parser.date Parser.date_pattern
    (VStr ("1999-12-31" +:+ " or so"))
  = Ok (VObj Parser.date (VList [VInt 1999; VInt 12; VInt 31])).
Proof.
  apply (parser_ignores_trailing_text Parser.record Parser.date); reflexivity.
Defined.

(** ** Fields decoded by a parser *)

Lemma coerce_decoder (rt : Runtime) (cfg : Config) (unit : TypeSpec)
    (key : string) (value : Value) (f : FuncId) :
  negb (is_function unit) && isinstance value unit = false ->
  decoders cfg !! spec_key unit = Some f ->
  Squema.coerce rt cfg unit key value = rt_call rt f value.
Proof.
  intros Hinst Hdec. destruct unit as [t|c|g]; simpl in *.
  - now rewrite Hinst, Hdec.
  - destruct c as [t fs a g x]. simpl in *. now rewrite Hinst, Hdec.
  - now rewrite Hdec.
Qed.

(** X22.  A field annotated [date], in a class whose policy registers the
    parser of dates for [date] (as [Config] does), reads an ISO text through
    that parser: the value stored is what [date] returns for the numbers of
    the text, and an [AttributeError] of [date] becomes the [ValueError] of
    line 26.  A value that is already a [date], or an instance of a class
    that has the class [date] itself among its ancestors, such as a
    [datetime], is stored as it is. *)
Theorem date_field_reads_iso_text (new : PyType -> list Z -> result Value)
    (rt : Runtime) (c : Class) (key : string) (y m d : Z) (rest : string) :
  decoders (ccfg c) !! tid Parser.date = Some "parser(date)" ->
  odict_get key (cann c) = Some (TClass Parser.date) ->
  0 <= y < 10000 -> 0 <= m < 100 -> 0 <= d < 100 ->
  Squema.getval (Parser.runtime new rt) c key
    (VStr (Parser.iso_date y m d +:+ rest))
  = try_except (new Parser.date [y; m; d]) Parser.is_AttributeError
      (fun _ => Raise (Parser.not_iso (Parser.iso_date y m d +:+ rest)))
  /\ (forall t payload, issubclass t Parser.date = true ->
      Squema.getval (Parser.runtime new rt) c key (VObj t payload)
      = Ok (VObj t payload)).
Proof.
  intros Hdec Hann Hy Hm Hd. unfold Squema.getval. rewrite Hann. split.
  - rewrite (coerce_decoder _ _ _ _ _ "parser(date)"); [|reflexivity|exact Hdec].
    transitivity (Parser.matcher new Parser.date Parser.date_pattern
                    (VStr (Parser.iso_date y m d +:+ rest))); [reflexivity|].
    rewrite (matcher_groups _ _ _ _ [Parser.pad4 y; Parser.pad2 m; Parser.pad2 d]).
    + cbn [map]. now rewrite int_pad4, !int_pad2 by assumption.
    + rewrite <- (app_nil_r Parser.date_pattern).
      now rewrite match_date_then by assumption.
  - intros t payload Hsub.
    cbn [Squema.coerce is_function negb andb isinstance type_of].
    now rewrite Hsub.
Qed.

Lemma date_field_reads_iso_text_witness :
  Squema.getval (Parser.runtime Parser.record Samples.rt)
    (MetaSquema.define "Event" "Event" [MetaSquema.BSquema] [("day", TClass Parser.date)] []
       default_config Samples.Squema_attrs)
    "day" (VStr (Parser.iso_date 1999 12 31 +:+ "T23:59:59"))
  = try_except (Parser.record Parser.date [1999; 12; 31]) Parser.is_AttributeError
      (fun _ => Raise (Parser.not_iso (Parser.iso_date 1999 12 31 +:+ "T23:59:59")))
  /\ (forall t payload, issubclass t Parser.date = true ->
      Squema.getval (Parser.runtime Parser.record Samples.rt)
        (MetaSquema.define "Event" "Event" [MetaSquema.BSquema] [("day", TClass Parser.date)] []
           default_config Samples.Squema_attrs)
        "day" (VObj t payload)
      = Ok (VObj t payload)).
Proof.
  apply (date_field_reads_iso_text Parser.record Samples.rt
           (MetaSquema.define "Event" "Event" [MetaSquema.BSquema]
              [("day", TClass Parser.date)] [] default_config Samples.Squema_attrs)
           "day" 1999 12 31 "T23:59:59");
    first [reflexivity | lia].
Defined.
